(** * pyArango [database.py]: the Database facade and its lazy DBHandle

    A shallow embedding of [src/pyArango/database.py].  Python objects are
    records, dictionaries are finite maps, every method is a function in a
    state-and-exception monad over the receiver [self] and the trace of
    calls made to collaborators (HTTP session, [print], progress reports,
    [delete] on handles). *)

From Stdlib Require Import ZArith String List.
From stdpp Require Import base option strings gmap list fin_maps pretty.

Local Open Scope Z_scope.
Local Open Scope string_scope.
Set Warnings "-register-all,-clear-no-such-hyp".

(** ** Decoded JSON values (what [r.json()] returns)

    A JSON object is kept as the list of items of the decoded dictionary;
    numbers are integers (status-like codes and flags are all this file
    inspects). *)

Inductive json : Type :=
| JNull
| JBool (b : bool)
| JNum (n : Z)
| JStr (s : string)
| JArr (items : list json)
| JObj (fields : list (string * json)).

(** ** Exceptions raised by the module or by the Python runtime *)

Inductive exn : Type :=
| UpdateError (message : json) (errors : json)
| CreationError (message : json) (errors : option json)
| AQLQueryError (message : json) (query : json) (errors : json)
| TransactionError (message : json) (action : json) (errors : json)
| DeletionError (message : json) (errors : json)
| ValueError (message : string)
| KeyError (key : string)
| TypeError (message : string)
| AttributeError (attr : string)
| SyntaxError (message : string).

Inductive result (A : Type) : Type :=
| Ok (a : A)
| Raise (e : exn).
Arguments Ok {A} a.
Arguments Raise {A} e.

Definition is_KeyError (e : exn) : bool :=
  match e with KeyError _ => true | _ => false end.

(** ** Python primitives on decoded JSON *)

(** Truth value testing ([if v], [not v]). *)
Definition truthy (v : json) : bool :=
  match v with
  | JNull => false
  | JBool b => b
  | JNum n => negb (Z.eqb n 0)
  | JStr s => negb (String.eqb s "")
  | JArr items => negb (Nat.eqb (length items) 0)
  | JObj fields => negb (Nat.eqb (length fields) 0)
  end.

Fixpoint assoc {A : Type} (k : string) (l : list (string * A)) : option A :=
  match l with
  | [] => None
  | (k', v) :: rest => if String.eqb k k' then Some v else assoc k rest
  end.

(** [d[k]] for a string key [k]. *)
Definition subscript (d : json) (k : string) : result json :=
  match d with
  | JObj fields =>
      match assoc k fields with
      | Some v => Ok v
      | None => Raise (KeyError k)
      end
  | JArr _ => Raise (TypeError "list indices must be integers or slices, not str")
  | JStr _ => Raise (TypeError "string indices must be integers")
  | _ => Raise (TypeError "object is not subscriptable")
  end.

(** [d.get(k)]: only dictionaries have the method. *)
Definition dict_get (d : json) (k : string) : result json :=
  match d with
  | JObj fields =>
      match assoc k fields with
      | Some v => Ok v
      | None => Ok JNull
      end
  | _ => Raise (AttributeError "get")
  end.

Fixpoint chars (s : string) : list json :=
  match s with
  | EmptyString => []
  | String c rest => JStr (String c EmptyString) :: chars rest
  end.

(** [for x in v]: the elements a [for] loop visits. *)
Definition iterate (v : json) : result (list json) :=
  match v with
  | JArr items => Ok items
  | JObj fields => Ok (map (λ kv, JStr (fst kv)) fields)
  | JStr s => Ok (chars s)
  | _ => Raise (TypeError "object is not iterable")
  end.

(** [v == n] for an integer constant [n] ([True == 1] and [False == 0]). *)
Definition py_eq_int (v : json) (n : Z) : bool :=
  match v with
  | JNum m => Z.eqb m n
  | JBool b => Z.eqb (if b then 1 else 0) n
  | _ => false
  end.

(** ["%d" % v]. *)
Definition format_d (v : json) : result string :=
  match v with
  | JNum n => Ok (pretty n)
  | JBool b => Ok (if b then "1" else "0")
  | _ => Raise (TypeError "%d format: a number is required")
  end.

(** Collection and graph names are strings on the wire; the registries of
    this embedding are keyed by strings, and a name of another JSON type is
    reported as a type error where the name is first used as a key. *)
Definition as_name (v : json) : result string :=
  match v with
  | JStr s => Ok s
  | _ => Raise (TypeError "name is not a string")
  end.

(** ** Collaborators: collection and graph classes, handles

    collection.py and graph.py are not in this file; their classes are
    represented by what database.py reads of them. *)

Record CollectionClass : Type := {
  cc_name : string;
  cc_isEdges : bool;                      (* issubclass(cls, COL.Edges) *)
  _properties : option (gmap string json) (* None: no such class attribute *)
}.

Definition COL_Collection : CollectionClass :=
  {| cc_name := "Collection"; cc_isEdges := false; _properties := None |}.
Definition COL_Edges : CollectionClass :=
  {| cc_name := "Edges"; cc_isEdges := true; _properties := None |}.
Definition COL_SystemCollection : CollectionClass :=
  {| cc_name := "SystemCollection"; cc_isEdges := false; _properties := None |}.

(** The object [colClass(self, colData)]: constructors are opaque here, the
    handle remembers its class and the JSON it was built from. *)
Record ColHandle : Type := { h_class : CollectionClass; h_data : json }.

Record EdgeDefinition : Type := {
  edgesCollection : string;
  fromCollections : list string;
  toCollections : list string
}.

Record GraphClass : Type := {
  gc_name : string;
  _edgeDefinitions : list EdgeDefinition;
  _orphanedCollections : list string
}.

(** The object [graphClass(self, graphData)], when the constructor returns:
    the handle remembers its class and the JSON it was built from.
    [gh_class = None] is the generic [Graph]. *)
Record GraphHandle : Type := { gh_class : option GraphClass; gh_data : json }.

(** ** The HTTP session and the trace of observable calls *)

Inductive Method : Type := GET | POST.

Record Request : Type := {
  req_method : Method;
  req_url : string;
  req_data : option (gmap string json)    (* the dictionary given to json.dumps *)
}.

Record Response : Type := { status_code : Z; body : json }.

Inductive Event : Type :=
| EvRequest (r : Request)
| EvPrint (line : string)
| EvReportStart (action : json)
| EvReportItem
| EvDeleteGraph (key : string)
| EvDeleteCollection (key : string).

(** ** Objects of class [Database] and [DBHandle]

    An instance attribute that has not been assigned yet is [None]. *)

Inductive PyClass : Type := Database | DBHandle.

Record Connection : Type := { getEnpointURL : string }.

Record Self : Type := {
  py_class : PyClass;
  name : string;
  connection : Connection;
  collections : option (gmap string ColHandle);
  graphs : option (gmap string GraphHandle)
}.

Record World : Type := { self : Self; trace : list Event }.

(** Everything the module imports or talks to.  The newest event is at the
    head of the trace handed to the oracles. *)
Record Env : Type := {
  server : list Event → Request → Response;
  delete_raises : list Event → option exn;
  (* what a graph constructor of graph.py raises, if it does, on the class
     ([None]: the generic Graph) and the description it is given *)
  graph_init_raises : list Event → option GraphClass → json → option exn;
  COLLECTION_EDGE_TYPE : Z;
  COLLECTION_DOCUMENT_TYPE : Z;
  collectionClasses : gmap string CollectionClass;
  graphClasses : gmap string GraphClass;
  col_name : ColHandle → string;            (* the attribute [col.name] *)
  toJson : EdgeDefinition → json
}.

(** ** The monad: state, trace and exceptions *)

Definition M (A : Type) : Type := World → result A * World.

Global Instance M_ret : MRet M := λ A a w, (Ok a, w).
Global Instance M_bind : MBind M := λ A B f m w,
  match m w with
  | (Ok a, w') => f a w'
  | (Raise e, w') => (Raise e, w')
  end.

Global Instance result_ret : MRet result := λ A a, Ok a.
Global Instance result_bind : MBind result := λ A B f r,
  match r with
  | Ok a => f a
  | Raise e => Raise e
  end.

Definition raise {A : Type} (e : exn) : M A := λ w, (Raise e, w).

Definition lift {A : Type} (r : result A) : M A := λ w, (r, w).

(** [try: m except KeyError: handler]. *)
Definition try_except_KeyError {A : Type} (m handler : M A) : M A := λ w,
  match m w with
  | (Raise e, w') => if is_KeyError e then handler w' else (Raise e, w')
  | ok => ok
  end.

Definition emit (ev : Event) : M unit := λ w,
  (Ok tt, {| self := self w; trace := ev :: trace w |}).

Definition get_self : M Self := λ w, (Ok (self w), w).

(** [self.name] and [self.connection]: always assigned. *)
Definition attr_name : M string := λ w, (Ok (name (self w)), w).
Definition attr_connection : M Connection := λ w, (Ok (connection (self w)), w).

Fixpoint for_each {A : Type} (l : list A) (body : A → M unit) : M unit :=
  match l with
  | [] => mret tt
  | x :: rest => body x;; for_each rest body
  end.

(** ** The class [Database] *)

Section Methods.

Context (env : Env).

(** *** Collaborator calls *)

Definition session_request (r : Request) : M Response := λ w,
  (Ok (server env (trace w) r), {| self := self w; trace := EvRequest r :: trace w |}).

(** [self.connection.session.get(url)] *)
Definition session_get (u : string) : M Response :=
  session_request {| req_method := GET; req_url := u; req_data := None |}.

(** [self.connection.session.post(url, data = json.dumps(payload))] *)
Definition session_post (u : string) (payload : gmap string json) : M Response :=
  session_request {| req_method := POST; req_url := u; req_data := Some payload |}.

Definition print (line : string) : M unit := emit (EvPrint line).

(** [handle.delete()]: a call on a collaborator object, which may raise. *)
Definition call_delete (ev : Event) : M unit := λ w,
  let w' := {| self := self w; trace := ev :: trace w |} in
  match delete_raises env (trace w') with
  | Some e => (Raise e, w')
  | None => (Ok tt, w')
  end.

(** [graphClass(self, graphData)]: a call of a constructor of graph.py,
    which may raise; it sends no request. *)
Definition new_graph (cls : option GraphClass) (graphData : json) : M GraphHandle := λ w,
  match graph_init_raises env (trace w) cls graphData with
  | Some e => (Raise e, w)
  | None => (Ok {| gh_class := cls; gh_data := graphData |}, w)
  end.

(** Modelled from the spec: the name-keyed registry of collection types
    kept by collection.py (not in this file), which always knows the two
    generic names beside the declared types. *)
Definition registry : gmap string CollectionClass :=
  <["Collection" := COL_Collection]> (<["Edges" := COL_Edges]> (collectionClasses env)).

(** Modelled from the spec: [COL.getCollectionClass] of collection.py, the
    lookup in that registry, raising KeyError for an unknown name (the
    [except KeyError] of line 63 relies on it). *)
Definition getCollectionClass (className : string) : result CollectionClass :=
  match registry !! className with
  | Some cls => Ok cls
  | None => Raise (KeyError className)
  end.

(** Modelled from the spec: [COL.isCollection] of collection.py, whether
    the name is that of a known collection type. *)
Definition isCollection (colName : string) : bool :=
  match registry !! colName with Some _ => true | None => false end.

(** Modelled from the spec: [COL.isEdgeCollection] of collection.py,
    whether the name is that of a known type derived from Edges. *)
Definition isEdgeCollection (colName : string) : bool :=
  match registry !! colName with Some cls => cc_isEdges cls | None => false end.

(** Modelled from the spec: [GR.getGraphClass] of graph.py, the name-keyed
    registry of graph types, raising KeyError for an unknown name. *)
Definition getGraphClass (graphName : string) : result GraphClass :=
  match graphClasses env !! graphName with
  | Some cls => Ok cls
  | None => Raise (KeyError graphName)
  end.

(** *** Attribute access *)

Definition set_collections (c : gmap string ColHandle) : M unit := λ w,
  (Ok tt, {| self := {| py_class := py_class (self w); name := name (self w);
                        connection := connection (self w);
                        collections := Some c; graphs := graphs (self w) |};
             trace := trace w |}).

Definition set_graphs (g : gmap string GraphHandle) : M unit := λ w,
  (Ok tt, {| self := {| py_class := py_class (self w); name := name (self w);
                        connection := connection (self w);
                        collections := collections (self w); graphs := Some g |};
             trace := trace w |}).

Definition set_name_connection (n : string) (c : Connection) : M unit := λ w,
  (Ok tt, {| self := {| py_class := py_class (self w); name := n; connection := c;
                        collections := collections (self w); graphs := graphs (self w) |};
             trace := trace w |}).

(** [object.__getattribute__(self, k)]: the normal lookup of an instance
    attribute. *)
Definition __getattribute__ {A : Type} (k : string) (field : Self → option A) : M A := λ w,
  match field (self w) with
  | Some v => (Ok v, w)
  | None => (Raise (AttributeError k), w)
  end.

(** *** URLs (lines 30-46)

    Line 36 opens [getCursorsURL] with [def getCursorsURL()(self)], which
    is not a function definition: Python rejects the line with SyntaxError,
    so no call of the method yields a URL. *)

Definition api_url (s : Self) : string :=
  getEnpointURL (connection s) +:+ "/_db/" +:+ name s +:+ "/_api".

Definition getURL : M string := s ← get_self; mret (api_url s).

Definition getCollectionsURL : M string := u ← getURL; mret (u +:+ "/collection").
Definition getCursorsURL : M string := raise (SyntaxError "invalid syntax").
Definition getExplainURL : M string := u ← getURL; mret (u +:+ "/explain").
Definition getGraphsURL : M string := u ← getURL; mret (u +:+ "/gharial").
Definition getTransactionURL : M string := u ← getURL; mret (u +:+ "/transaction").

(** *** reloadCollections (lines 48-74)

    Inside the method [self.collections] is read only after it has been
    assigned, so the reads are normal lookups. *)

Definition setitem_collections (k : string) (v : ColHandle) : M unit :=
  c ← __getattribute__ "collections" collections;
  set_collections (<[k := v]> c).

(** The body of the [for colData in data["result"]] loop. *)
Definition load_colData (colData : json) : M unit :=
  n ← lift (subscript colData "name");
  colName ← lift (as_name n);
  isSystem ← lift (subscript colData "isSystem");
  colObj ←
    (if truthy isSystem then
       mret {| h_class := COL_SystemCollection; h_data := colData |}
     else
       try_except_KeyError
         (colClass ← lift (getCollectionClass colName);
          mret {| h_class := colClass; h_data := colData |})
         (ty ← lift (subscript colData "type");
          if py_eq_int ty (COLLECTION_EDGE_TYPE env) then
            mret {| h_class := COL_Edges; h_data := colData |}
          else
            ty ← lift (subscript colData "type");
            if py_eq_int ty (COLLECTION_DOCUMENT_TYPE env) then
              mret {| h_class := COL_Collection; h_data := colData |}
            else
              ty ← lift (subscript colData "type");
              code ← lift (format_d ty);
              print ("Warning!! Collection of unknown type: " +:+ code
                     +:+ ", trying to load it as Collection nonetheless.");;
              mret {| h_class := COL_Collection; h_data := colData |}));
  setitem_collections colName colObj.

Definition reloadCollections : M unit :=
  u ← getCollectionsURL;
  r ← session_get u;
  let data := body r in
  if Z.eqb (status_code r) 200 then
    set_collections ∅;;
    result ← lift (subscript data "result");
    items ← lift (iterate result);
    for_each items load_colData
  else
    msg ← lift (subscript data "errorMessage");
    raise (UpdateError msg data).

(** *** reloadGraphs (lines 76-88) *)

Definition setitem_graphs (k : string) (v : GraphHandle) : M unit :=
  g ← __getattribute__ "graphs" graphs;
  set_graphs (<[k := v]> g).

(** The body of the [for graphData in data["graphs"]] loop: the right-hand
    side of the assignment is evaluated before the subscript target, and
    the [try] covers the constructor call as well as the class lookup. *)
Definition load_graphData (graphData : json) : M unit :=
  try_except_KeyError
    (k ← lift (subscript graphData "_key");
     key ← lift (as_name k);
     cls ← lift (getGraphClass key);
     obj ← new_graph (Some cls) graphData;
     k ← lift (subscript graphData "_key");
     key ← lift (as_name k);
     setitem_graphs key obj)
    (obj ← new_graph None graphData;
     k ← lift (subscript graphData "_key");
     key ← lift (as_name k);
     setitem_graphs key obj).

Definition reloadGraphs : M unit :=
  u ← getGraphsURL;
  r ← session_get u;
  let data := body r in
  if Z.eqb (status_code r) 200 then
    set_graphs ∅;;
    gs ← lift (subscript data "graphs");
    items ← lift (iterate gs);
    for_each items load_graphData
  else
    msg ← lift (subscript data "errorMessage");
    raise (UpdateError msg data).

(** *** reload (lines 90-93) and __init__ (lines 18-28) *)

Definition reload : M unit := reloadCollections;; reloadGraphs.

Definition Database___init__ (c : Connection) (n : string) : M unit :=
  set_name_connection n c;;
  set_collections ∅;;
  set_collections ∅;;
  set_graphs ∅;;
  reload.

(** *** DBHandle (lines 276-286) *)

Definition DBHandle___init__ (c : Connection) (n : string) : M unit :=
  set_name_connection n c.

Definition DBHandle___getattr__ {A : Type} (k : string) (field : Self → option A) : M A :=
  n ← attr_name;
  c ← attr_connection;
  Database___init__ c n;;
  __getattribute__ k field.

(** [self.k]: normal lookup first; when it fails, the class's
    [__getattr__] if it has one ([Database] has none). *)
Definition getattr {A : Type} (k : string) (field : Self → option A) : M A := λ w,
  match field (self w) with
  | Some v => (Ok v, w)
  | None =>
      match py_class (self w) with
      | Database => (Raise (AttributeError k), w)
      | DBHandle => DBHandle___getattr__ k field w
      end
  end.

Definition attr_collections : M (gmap string ColHandle) := getattr "collections" collections.
Definition attr_graphs : M (gmap string GraphHandle) := getattr "graphs" graphs.

(** *** createCollection (lines 95-134) *)

(** [d[k]] on a dictionary of the program. *)
Definition dict_subscript {A : Type} (d : gmap string A) (k : string) : result A :=
  match d !! k with
  | Some v => Ok v
  | None => Raise (KeyError k)
  end.

(** Lines 120-134: the wire type, the POST and the registration. *)
Definition post_collection (colClass : CollectionClass)
    (colProperties : gmap string json) : M ColHandle :=
  let colProperties :=
    if cc_isEdges colClass
    then <["type" := JNum (COLLECTION_EDGE_TYPE env)]> colProperties
    else <["type" := JNum (COLLECTION_DOCUMENT_TYPE env)]> colProperties in
  u ← getCollectionsURL;
  r ← session_post u colProperties;
  let data := body r in
  success ← (if Z.eqb (status_code r) 200
             then e ← lift (subscript data "error"); mret (negb (truthy e))
             else mret false);
  if success : bool then
    let col := {| h_class := colClass; h_data := data |} in
    c ← attr_collections;
    set_collections (<[col_name env col := col]> c);;
    c ← attr_collections;
    lift (dict_subscript c (col_name env col))
  else
    msg ← lift (subscript data "errorMessage");
    raise (CreationError msg (Some data)).

Definition createCollection (className : string)
    (colProperties : gmap string json) : M ColHandle :=
  colClass ← lift (getCollectionClass className);
  let colProperties :=
    if Nat.ltb 0 (size colProperties) then colProperties
    else match _properties colClass with
         | Some d => d
         | None => ∅
         end in
  colProperties ←
    (if negb (String.eqb className "Collection") && negb (String.eqb className "Edges")
     then mret (<["name" := JStr className]> colProperties)
     else match colProperties !! "name" with
          | Some _ => mret colProperties
          | None => raise (ValueError
              "a 'name' argument mush be supplied if you want to create a generic collection")
          end);
  v ← lift (dict_subscript colProperties "name");
  c ← attr_collections;
  match v with
  | JStr colName =>
      match c !! colName with
      | Some _ =>
          n ← attr_name;
          raise (CreationError
                   (JStr ("Database " +:+ n +:+ " already has a collection named "
                          +:+ colName)) None)
      | None => post_collection colClass colProperties
      end
  | JArr _ | JObj _ => raise (TypeError "unhashable type")
  | _ => post_collection colClass colProperties
  end.

(** *** createGraph (lines 141-191) *)

Fixpoint _checkCollectionList (lst : list string) : result unit :=
  match lst with
  | [] => Ok tt
  | colName :: rest =>
      if negb (isCollection colName)
      then Raise (ValueError ("'" +:+ colName +:+ "' is not a defined Collection"))
      else _checkCollectionList rest
  end.

(** The loop over [graphClass._edgeDefinitions], accumulating [ed]. *)
Fixpoint check_edgeDefinitions (defs : list EdgeDefinition) (ed : list json)
    : result (list json) :=
  match defs with
  | [] => Ok ed
  | e :: rest =>
      if negb (isEdgeCollection (edgesCollection e))
      then Raise (ValueError ("'" +:+ edgesCollection e
                              +:+ "' is not a defined Edge Collection"))
      else
        _checkCollectionList (fromCollections e);;
        _checkCollectionList (toCollections e);;
        check_edgeDefinitions rest (ed ++ [toJson env e])%list
  end.

Definition graph_payload (graphName : string) (ed : list json) (orphans : list string)
    (isSmart numberOfShards smartGraphAttribute : json) : gmap string json :=
  let options :=
    ((if truthy numberOfShards then [("numberOfShards", numberOfShards)] else [])
     ++ (if truthy smartGraphAttribute
         then [("smartGraphAttribute", smartGraphAttribute)] else []))%list in
  let payload : gmap string json :=
    <["orphanCollections" := JArr (map JStr orphans)]>
      (<["edgeDefinitions" := JArr ed]> {[ "name" := JStr graphName ]}) in
  let payload := if truthy isSmart then <["isSmart" := isSmart]> payload else payload in
  if truthy (JObj options) then <["options" := JObj options]> payload else payload.

Definition createGraph (graphName : string)
    (createCollections isSmart numberOfShards smartGraphAttribute : json)
    : M GraphHandle :=
  graphClass ← lift (getGraphClass graphName);
  ed ← lift (check_edgeDefinitions (_edgeDefinitions graphClass) []);
  lift (_checkCollectionList (_orphanedCollections graphClass));;
  let payload := graph_payload graphName ed (_orphanedCollections graphClass)
                   isSmart numberOfShards smartGraphAttribute in
  u ← getGraphsURL;
  r ← session_post u payload;
  let data := body r in
  (if Z.eqb (status_code r) 201 || Z.eqb (status_code r) 202 then
     gd ← lift (subscript data "graph");
     obj ← new_graph (Some graphClass) gd;
     g ← attr_graphs;
     set_graphs (<[graphName := obj]> g)
   else
     msg ← lift (subscript data "errorMessage");
     raise (CreationError msg (Some data)));;
  g ← attr_graphs;
  lift (dict_subscript g graphName).

(** *** hasCollection, hasGraph (lines 193-199) *)

Definition hasCollection (n : string) : M bool :=
  c ← attr_collections; mret (bool_decide (is_Some (c !! n))).

Definition hasGraph (n : string) : M bool :=
  g ← attr_graphs; mret (bool_decide (is_Some (g !! n))).

(** *** __getitem__ (lines 265-274) *)

Definition __getitem__ (collectionName : string) : M ColHandle :=
  try_except_KeyError
    (c ← attr_collections; lift (dict_subscript c collectionName))
    (reload;;
     try_except_KeyError
       (c ← attr_collections; lift (dict_subscript c collectionName))
       (raise (KeyError ("Can't find any collection named : " +:+ collectionName)))).

(** *** dropAllCollections (lines 201-209)

    A [for] loop over a dictionary visits each of its keys once; no call
    made inside the loops inserts into or removes from the dictionary being
    visited.  The keys come in the order of [map_to_list], which nothing
    proved below depends on. *)

Definition keys {A : Type} (d : gmap string A) : list string := (map_to_list d).*1.

Definition dropAllCollections : M unit :=
  g ← attr_graphs;
  for_each (keys g) (λ graph_name,
    g ← attr_graphs;
    _ ← lift (dict_subscript g graph_name);
    call_delete (EvDeleteGraph graph_name));;
  c ← attr_collections;
  for_each (keys c) (λ collection_name,
    if negb (String.prefix "_" collection_name) then
      _ ← __getitem__ collection_name;
      call_delete (EvDeleteCollection collection_name)
    else mret tt);;
  mret tt.

(** *** explainAQLQuery, validateAQLQuery (lines 218-236) *)

Definition explainAQLQuery (query bindVars allPlans : json) : M json :=
  let payload : gmap string json :=
    <["allPlans" := allPlans]> (<["bindVars" := bindVars]> {[ "query" := query ]}) in
  u ← getExplainURL;
  request ← session_post u payload;
  mret (body request).

Definition validate_payload (query bindVars options : json) : gmap string json :=
  let bindVars := match bindVars with JNull => JObj [] | _ => bindVars end in
  let options := match options with JNull => JObj [] | _ => options end in
  <["options" := options]> (<["bindVars" := bindVars]> {[ "query" := query ]}).

Definition validateAQLQuery (query bindVars options : json) : M json :=
  let payload := validate_payload query bindVars options in
  u ← getCursorsURL;
  r ← session_post u payload;
  let data := body r in
  success ← (if Z.eqb (status_code r) 201
             then e ← lift (subscript data "error"); mret (negb (truthy e))
             else mret false);
  if success : bool then mret data
  else
    msg ← lift (subscript data "errorMessage");
    raise (AQLQueryError msg query data).

(** *** transaction (lines 238-260)

    The call site asks [self] for [geTransactionURL]; the class defines
    [getTransactionURL], so the lookup finds neither an instance attribute
    nor a method. *)

Definition transaction_payload (cols action waitForSync lockTimeout params : json)
    : gmap string json :=
  let payload : gmap string json :=
    <["waitForSync" := waitForSync]> (<["action" := action]> {[ "collections" := cols ]}) in
  let payload :=
    match lockTimeout with JNull => payload | _ => <["lockTimeout" := lockTimeout]> payload end in
  match params with JNull => payload | _ => <["params" := params]> payload end.

Definition transaction (cols action waitForSync lockTimeout params : json) : M json :=
  let payload := transaction_payload cols action waitForSync lockTimeout params in
  emit (EvReportStart action);;
  geTransactionURL ← getattr (A := M string) "geTransactionURL" (λ _, None);
  u ← geTransactionURL;
  r ← session_post u payload;
  emit EvReportItem;;
  let data := body r in
  success ← (if Z.eqb (status_code r) 200 || Z.eqb (status_code r) 201
                || Z.eqb (status_code r) 202
             then e ← lift (dict_get data "error"); mret (negb (truthy e))
             else mret false);
  if success : bool then mret data
  else
    msg ← lift (subscript data "errorMessage");
    raise (TransactionError msg action data).

End Methods.

(** ** States and requests used in the statements *)

(** An instance of [Database] after its constructor returned: both
    registries are assigned. *)
Definition database (n : string) (conn : Connection)
    (c : gmap string ColHandle) (g : gmap string GraphHandle) : Self :=
  {| py_class := Database; name := n; connection := conn;
     collections := Some c; graphs := Some g |}.

(** An instance of [DBHandle] right after [DBHandle.__init__]. *)
Definition fresh_handle (n : string) (conn : Connection) : Self :=
  {| py_class := DBHandle; name := n; connection := conn;
     collections := None; graphs := None |}.

Abbreviation world s tr := {| self := s; trace := tr |} (only parsing).

Definition post (u : string) (payload : gmap string json) : Request :=
  {| req_method := POST; req_url := u; req_data := Some payload |}.

Definition get (u : string) : Request :=
  {| req_method := GET; req_url := u; req_data := None |}.

(** The requests in a trace, oldest first. *)
Definition requests (tr : list Event) : list Request :=
  omap (λ ev, match ev with EvRequest r => Some r | _ => None end) (rev tr).

(** The wire type [createCollection] sets for a class (lines 120-123). *)
Definition wire_type (env : Env) (cls : CollectionClass) : Z :=
  if cc_isEdges cls then COLLECTION_EDGE_TYPE env else COLLECTION_DOCUMENT_TYPE env.

(** The request [createCollection] sends once its properties are settled. *)
Definition collection_post (env : Env) (s : Self) (cls : CollectionClass)
    (colProperties : gmap string json) : Request :=
  post (api_url s +:+ "/collection") (<["type" := JNum (wire_type env cls)]> colProperties).

Definition duplicate_message (n colName : string) : json :=
  JStr ("Database " +:+ n +:+ " already has a collection named " +:+ colName).

Definition missing_name_message : string :=
  "a 'name' argument mush be supplied if you want to create a generic collection".

Definition is_generic (className : string) : Prop :=
  className = "Collection" ∨ className = "Edges".

(** The collections a graph class refers to, in the order [createGraph]
    visits them; [true] marks the edge collection of an edge definition. *)
Definition references_of (e : EdgeDefinition) : list (bool * string) :=
  (true, edgesCollection e)
  :: (map (pair false) (fromCollections e) ++ map (pair false) (toCollections e))%list.

Definition references (cls : GraphClass) : list (bool * string) :=
  (concat (map references_of (_edgeDefinitions cls))
   ++ map (pair false) (_orphanedCollections cls))%list.

(** The check [createGraph] applies to a referenced collection. *)
Definition rejected (env : Env) (ref : bool * string) : bool :=
  if ref.1 then negb (isEdgeCollection env ref.2) else negb (isCollection env ref.2).

Definition rejection (ref : bool * string) : exn :=
  ValueError ("'" +:+ ref.2 +:+
              (if ref.1 then "' is not a defined Edge Collection"
               else "' is not a defined Collection")).

Definition graph_post (env : Env) (s : Self) (cls : GraphClass) (graphName : string)
    (isSmart numberOfShards smartGraphAttribute : json) : Request :=
  post (api_url s +:+ "/gharial")
       (graph_payload graphName (map (toJson env) (_edgeDefinitions cls))
                      (_orphanedCollections cls) isSmart numberOfShards smartGraphAttribute).

(** [self] after [self.collections] has been assigned or updated. *)
Definition with_collections (s : Self) (c : gmap string ColHandle) : Self :=
  {| py_class := py_class s; name := name s; connection := connection s;
     collections := Some c; graphs := graphs s |}.

Definition unknown_type_warning (code : string) : Event :=
  EvPrint ("Warning!! Collection of unknown type: " +:+ code
           +:+ ", trying to load it as Collection nonetheless.").

(** The classification of one item of the collection listing, as the
    amended C3 words it: the name, the class of the handle and the warning
    printed, if any.  System by [isSystem]; otherwise the class registered
    under the item's name when there is one; otherwise edge or document by
    [type], an unknown type code giving the generic document class and a
    warning. *)
Definition classify_item (env : Env) (item : json)
    : result (string * CollectionClass * list Event) :=
  n ← subscript item "name";
  k ← as_name n;
  isSystem ← subscript item "isSystem";
  if truthy isSystem then Ok (k, COL_SystemCollection, [])
  else
    match registry env !! k with
    | Some cls => Ok (k, cls, [])
    | None =>
        ty ← subscript item "type";
        if py_eq_int ty (COLLECTION_EDGE_TYPE env) then Ok (k, COL_Edges, [])
        else if py_eq_int ty (COLLECTION_DOCUMENT_TYPE env) then Ok (k, COL_Collection, [])
        else code ← format_d ty; Ok (k, COL_Collection, [unknown_type_warning code])
    end.

(** The same object seen as an instance of [cls]. *)
Definition as_class (cls : PyClass) (w : World) : World :=
  {| self := {| py_class := cls; name := name (self w); connection := connection (self w);
                collections := collections (self w); graphs := graphs (self w) |};
     trace := trace w |}.

(** Both registries have been assigned. *)
Definition loaded (w : World) : Prop :=
  is_Some (collections (self w)) ∧ is_Some (graphs (self w)).

(** A computation that, on an object whose registries are assigned, does
    the same whatever the class of the object, and leaves the registries
    assigned. *)
Definition class_blind {A : Type} (m : M A) : Prop :=
  ∀ cls w, loaded w →
    m (as_class cls w) = ((m w).1, as_class cls (m w).2) ∧ loaded (m w).2.

(** The object [Database(connection, name)] is constructing when
    [Database.__init__] starts. *)
Definition under_construction (cls : PyClass) (n : string) (conn : Connection) : Self :=
  {| py_class := cls; name := n; connection := conn; collections := None; graphs := None |}.

(** How many times a trace asks for the listing at [u]. *)
Definition is_get_of (u : string) (ev : Event) : bool :=
  match ev with
  | EvRequest {| req_method := GET; req_url := u' |} => String.eqb u' u
  | _ => false
  end.

Definition listings (u : string) (tr : list Event) : nat :=
  length (List.filter (is_get_of u) tr).

Definition not_found (collectionName : string) : exn :=
  KeyError ("Can't find any collection named : " +:+ collectionName).





(** ** Further notions used in the statements *)

(** [self] after [self.graphs] has been assigned or updated. *)
Definition with_graphs (s : Self) (g : gmap string GraphHandle) : Self :=
  {| py_class := py_class s; name := name s; connection := connection s;
     collections := collections s; graphs := Some g |}.

(** The key under which the loop of [reloadGraphs] registers an item. *)
Definition graph_key (graphData : json) : result string :=
  k ← subscript graphData "_key"; as_name k.

(** The class whose constructor builds the handle that the loop of
    [reloadGraphs] registers for an item: the type registered under the
    key, and the generic [Graph] when there is none or when its constructor
    raises (a KeyError, for the loop to go on). *)
Definition built_class (env : Env) (tr : list Event) (key : string) (graphData : json)
    : option GraphClass :=
  match graphClasses env !! key with
  | Some cls =>
      match graph_init_raises env tr (Some cls) graphData with
      | None => Some cls
      | Some _ => None
      end
  | None => None
  end.

(** How many POST requests a trace holds. *)
Definition posts_sent (tr : list Event) : nat :=
  length (List.filter (λ ev, match ev with
                             | EvRequest {| req_method := POST |} => true
                             | _ => false
                             end) tr).

(** ** Invariants used in the proofs *)

(** [I] holds after [m] whenever it holds before, however [m] ends. *)
Definition preserves {A : Type} (I : World → Prop) (m : M A) : Prop :=
  ∀ w, I w → I (m w).2.

(** The identity of the object and the presence of both registries. *)
Definition settled (cls : PyClass) (n : string) (conn : Connection) (w : World) : Prop :=
  py_class (self w) = cls ∧ name (self w) = n ∧ connection (self w) = conn
  ∧ is_Some (collections (self w)) ∧ is_Some (graphs (self w)).

(** The URLs stay the same and the trace holds [k] collection listings. *)
Definition listed (base : string) (k : nat) (w : World) : Prop :=
  api_url (self w) = base ∧ listings (base +:+ "/collection") (trace w) = k.

(** ** Concrete scenarios *)

Module Scenario.

Definition conn : Connection := {| getEnpointURL := "http://db" |}.

Definition constant_server (status : Z) (payload : json)
    : list Event → Request → Response :=
  λ _ _, {| status_code := status; body := payload |}.

(** What reading [d[k]] raises, if it does. *)
Definition missing (d : json) (k : string) : option exn :=
  match subscript d k with Ok _ => None | Raise e => Some e end.

(** A graph constructor that reads [_key] (or else [name]), [_rev] and
    [_id] of the description it is given and raises for the first one it
    cannot read. *)
Definition graph_reads_identity : list Event → option GraphClass → json → option exn :=
  λ _ _ d,
    match missing d "_key", missing d "name" with
    | Some _, Some e => Some e
    | _, _ => match missing d "_rev" with
              | Some e => Some e
              | None => missing d "_id"
              end
    end.

(** Modelled from the spec: the wire enum of consts.py, which is not in
    this file (2 = edge, 3 = document).  No [delete] raises; a graph
    constructor raises only for a description without identity; a handle
    is named by the [name] of its data, or else after its class. *)
Definition env_of (srv : list Event → Request → Response)
    (classes : gmap string CollectionClass) (gclasses : gmap string GraphClass) : Env :=
  {| server := srv; delete_raises := λ _, None;
     graph_init_raises := graph_reads_identity;
     COLLECTION_EDGE_TYPE := 2; COLLECTION_DOCUMENT_TYPE := 3;
     collectionClasses := classes; graphClasses := gclasses;
     col_name := λ h, match subscript (h_data h) "name" with
                      | Ok (JStr s) => s
                      | _ => cc_name (h_class h)
                      end;
     toJson := λ e, JObj [("collection", JStr (edgesCollection e))] |}.

Definition transaction_ok : json := JObj [("error", JBool false); ("result", JNum 42)].

Definition validate_ok : json := JObj [("error", JBool false)].
Definition validate_failed : json :=
  JObj [("error", JBool true); ("errorMessage", JStr "syntax error")].

Definition db0 : Self := database "d" conn ∅ ∅.

(** A collection type declaring default properties. *)
Definition Users : CollectionClass :=
  {| cc_name := "Users"; cc_isEdges := false;
     _properties := Some {[ "waitForSync" := JBool true ]} |}.

Definition created (n : string) : json := JObj [("error", JBool false); ("name", JStr n)].

Definition env_users : Env :=
  env_of (constant_server 200 (created "Users")) {[ "Users" := Users ]} ∅.

(** An edge collection type, and two graph types over [Users], [Knows] and
    the undeclared [Ghost]. *)
Definition Knows : CollectionClass :=
  {| cc_name := "Knows"; cc_isEdges := true; _properties := None |}.

Definition Social : GraphClass :=
  {| gc_name := "Social";
     _edgeDefinitions := [ {| edgesCollection := "Users"; fromCollections := ["Users"];
                              toCollections := ["Ghost"] |} ];
     _orphanedCollections := [] |}.

Definition Friends : GraphClass :=
  {| gc_name := "Friends";
     _edgeDefinitions := [ {| edgesCollection := "Knows"; fromCollections := ["Users"];
                              toCollections := ["Ghost"] |} ];
     _orphanedCollections := [] |}.

(** A listing whose non-system item [Users] carries the edge type code
    while a document type is registered under that name; [odd] has a type
    code the client does not know. *)
Definition users_item : json :=
  JObj [("name", JStr "Users"); ("isSystem", JBool false); ("type", JNum 2)].
Definition odd_item : json :=
  JObj [("name", JStr "odd"); ("isSystem", JBool false); ("type", JNum 9)].
Definition system_item : json :=
  JObj [("name", JStr "_graphs"); ("isSystem", JBool true); ("type", JNum 3)].

Definition collection_listing : json :=
  JObj [("error", JBool false); ("result", JArr [system_item; users_item; odd_item])].
Definition graph_listing : json := JObj [("error", JBool false); ("graphs", JArr [])].

Definition listing_server : list Event → Request → Response :=
  λ _ r, if String.eqb (req_url r) "http://db/_db/d/_api/collection"
         then {| status_code := 200; body := collection_listing |}
         else {| status_code := 200; body := graph_listing |}.

Definition env_listing : Env := env_of listing_server {[ "Users" := Users ]} ∅.

Definition server_down : json :=
  JObj [("error", JBool true); ("errorMessage", JStr "service unavailable")].

(** A server that answers the first two requests and is down afterwards. *)
Definition flaky_server : list Event → Request → Response :=
  λ tr r, if Nat.ltb (length (requests tr)) 2 then listing_server tr r
          else {| status_code := 503; body := server_down |}.

Definition env_flaky : Env := env_of flaky_server {[ "Users" := Users ]} ∅.

Definition env_graphs : Env :=
  env_of (constant_server 503 server_down)
         {[ "Users" := Users; "Knows" := Knows ]}
         {[ "Social" := Social; "Friends" := Friends ]}.

Definition env_transaction_ok : Env := env_of (constant_server 200 transaction_ok) ∅ ∅.
Definition env_validate_ok : Env := env_of (constant_server 201 validate_ok) ∅ ∅.
Definition env_validate_400 : Env := env_of (constant_server 400 validate_failed) ∅ ∅.

(** A graph type whose references are all known, and a server that creates
    it. *)
Definition Team : GraphClass :=
  {| gc_name := "Team";
     _edgeDefinitions := [ {| edgesCollection := "Knows"; fromCollections := ["Users"];
                              toCollections := ["Users"] |} ];
     _orphanedCollections := ["Users"] |}.

Definition team_description : json :=
  JObj [("_key", JStr "Team"); ("_id", JStr "_graphs/Team"); ("_rev", JStr "_a1");
        ("name", JStr "Team");
        ("edgeDefinitions",
         JArr [JObj [("collection", JStr "Knows"); ("from", JArr [JStr "Users"]);
                     ("to", JArr [JStr "Users"])]]);
        ("orphanCollections", JArr [JStr "Users"])].

Definition env_team : Env :=
  env_of (constant_server 201 (JObj [("error", JBool false); ("graph", team_description)]))
         {[ "Users" := Users; "Knows" := Knows ]} {[ "Team" := Team ]}.

(** A server whose description of the created graph has no [_rev]. *)
Definition env_team_without_rev : Env :=
  env_of (constant_server 201
            (JObj [("error", JBool false);
                   ("graph", JObj [("_key", JStr "Team"); ("name", JStr "Team")])]))
         {[ "Users" := Users; "Knows" := Knows ]} {[ "Team" := Team ]}.

(** Descriptions of two more graphs, and a server that lists the three:
    [Team] and [Social] are registered graph types, [Club] is not. *)
Definition graph_description (key : string) : json :=
  JObj [("_key", JStr key); ("_id", JStr ("_graphs/" +:+ key)); ("_rev", JStr "_b2");
        ("name", JStr key); ("edgeDefinitions", JArr []); ("orphanCollections", JArr [])].

Definition three_graphs : list json :=
  [team_description; graph_description "Social"; graph_description "Club"].

Definition three_graphs_server : list Event → Request → Response :=
  λ _ r, if String.eqb (req_url r) "http://db/_db/d/_api/collection"
         then {| status_code := 200; body := collection_listing |}
         else {| status_code := 200;
                 body := JObj [("error", JBool false); ("graphs", JArr three_graphs)] |}.

(** A graph constructor that, beside reading the identity, refuses with
    KeyError a graph type one of whose edge definitions is over another
    collection than the edge collection [Knows]; [Social] is such a type. *)
Definition graph_checks_edges : list Event → option GraphClass → json → option exn :=
  λ tr cls d,
    match graph_reads_identity tr cls d, cls with
    | Some e, _ => Some e
    | None, Some c =>
        match find (λ e, negb (String.eqb (edgesCollection e) "Knows")) (_edgeDefinitions c) with
        | Some e => Some (KeyError ("'" +:+ edgesCollection e
                                    +:+ "' is not a valid edge collection"))
        | None => None
        end
    | None, None => None
    end.

Definition env_three_graphs : Env :=
  {| server := three_graphs_server;
     delete_raises := λ _, None;
     graph_init_raises := graph_checks_edges;
     COLLECTION_EDGE_TYPE := 2; COLLECTION_DOCUMENT_TYPE := 3;
     collectionClasses := {[ "Users" := Users; "Knows" := Knows ]};
     graphClasses := {[ "Team" := Team; "Social" := Social ]};
     col_name := λ h, cc_name (h_class h);
     toJson := λ e, JStr (edgesCollection e) |}.

(** A server that lists the collections and is down for the graphs. *)
Definition graphs_down_server : list Event → Request → Response :=
  λ _ r, if String.eqb (req_url r) "http://db/_db/d/_api/collection"
         then {| status_code := 200; body := collection_listing |}
         else {| status_code := 503; body := server_down |}.

Definition env_graphs_down : Env := env_of graphs_down_server {[ "Users" := Users ]} ∅.

(** A server whose status 200 answers hold no [result]. *)
Definition env_no_result : Env := env_of (constant_server 200 validate_ok) ∅ ∅.

(** Collaborators whose [delete] always raises. *)
Definition deletion_refused : exn := DeletionError (JStr "forbidden") JNull.

Definition env_delete_fails : Env :=
  {| server := constant_server 200 validate_ok;
     delete_raises := λ _, Some deletion_refused;
     graph_init_raises := graph_reads_identity;
     COLLECTION_EDGE_TYPE := 2; COLLECTION_DOCUMENT_TYPE := 3;
     collectionClasses := ∅; graphClasses := ∅;
     col_name := λ h, cc_name (h_class h);
     toJson := λ e, JStr (edgesCollection e) |}.

End Scenario.

(** * Proofs *)

Ltac run :=
  repeat (progress (unfold mbind, M_bind, mret, M_ret, lift, raise, emit, get_self,
                    attr_name, attr_connection,
                    getURL, getCollectionsURL, getCursorsURL, getExplainURL, new_graph,
                    getGraphsURL, getTransactionURL, session_post, session_get,
                    session_request, attr_collections, attr_graphs, getattr; simpl)).

Section Proofs.

Context (env : Env).

(** *** Invariants of monadic code *)

Lemma preserves_bind {A B} (I : World → Prop) (m : M A) (f : A → M B) :
  preserves I m → (∀ a, preserves I (f a)) → preserves I (m ≫= f).
Proof.
  intros Hm Hf w Hw. unfold mbind, M_bind. specialize (Hm w Hw).
  destruct (m w) as [[a|e] w']; simpl in *; [by apply Hf|done].
Qed.

Lemma preserves_ret {A} (I : World → Prop) (a : A) : preserves I (mret a).
Proof. by intros w. Qed.

Lemma preserves_lift {A} (I : World → Prop) (r : result A) : preserves I (lift r).
Proof. by intros w. Qed.

Lemma preserves_raise {A} (I : World → Prop) (e : exn) : preserves I (raise (A := A) e).
Proof. by intros w. Qed.

Lemma preserves_get_self (I : World → Prop) : preserves I get_self.
Proof. by intros w. Qed.

Lemma preserves_getattribute {A} (I : World → Prop) k (field : Self → option A) :
  preserves I (__getattribute__ k field).
Proof. intros w Hw. unfold __getattribute__. by destruct (field (self w)). Qed.

Lemma preserves_new_graph (I : World → Prop) cls graphData :
  preserves I (new_graph env cls graphData).
Proof. intros w Hw. unfold new_graph. by destruct (graph_init_raises env _ _ _). Qed.

Lemma preserves_try {A} (I : World → Prop) (m handler : M A) :
  preserves I m → preserves I handler → preserves I (try_except_KeyError m handler).
Proof.
  intros Hm Hh w Hw. unfold try_except_KeyError. specialize (Hm w Hw).
  destruct (m w) as [[a|e] w']; simpl in *; [done|].
  destruct (is_KeyError e); [by apply Hh|done].
Qed.

Lemma preserves_for_each {A} (I : World → Prop) (l : list A) (body : A → M unit) :
  (∀ x, preserves I (body x)) → preserves I (for_each l body).
Proof.
  intros Hb. induction l as [|x l IH]; simpl.
  - apply preserves_ret.
  - apply preserves_bind; [apply Hb|]. by intros _.
Qed.

Ltac preserves_step :=
  cbv beta zeta;
  first
    [ apply preserves_ret | apply preserves_lift | apply preserves_raise
    | apply preserves_get_self | apply preserves_getattribute
    | apply preserves_new_graph
    | apply preserves_bind; [|intros ?]
    | apply preserves_try
    | apply preserves_for_each; intros ?
    | match goal with |- preserves _ (if ?b then _ else _) => destruct b end
    | match goal with |- preserves _ (match ?x with _ => _ end) => destruct x end ].

Ltac settled_leaf :=
  let w := fresh "w" in
  intros w (? & ? & ? & ? & ?); unfold settled; simpl; eauto 10.

Lemma load_colData_settled cls n conn colData :
  preserves (settled cls n conn) (load_colData env colData).
Proof.
  unfold load_colData, setitem_collections, print.
  repeat preserves_step; settled_leaf.
Qed.

Lemma load_graphData_settled cls n conn graphData :
  preserves (settled cls n conn) (load_graphData env graphData).
Proof.
  unfold load_graphData, setitem_graphs.
  repeat preserves_step; settled_leaf.
Qed.

Lemma reloadCollections_settled cls n conn :
  preserves (settled cls n conn) (reloadCollections env).
Proof.
  unfold reloadCollections, getCollectionsURL, getURL, session_get.
  repeat preserves_step; try apply load_colData_settled; settled_leaf.
Qed.

Lemma reloadGraphs_settled cls n conn :
  preserves (settled cls n conn) (reloadGraphs env).
Proof.
  unfold reloadGraphs, getGraphsURL, getURL, session_get.
  repeat preserves_step; try apply load_graphData_settled; settled_leaf.
Qed.

Lemma reload_settled cls n conn : preserves (settled cls n conn) (reload env).
Proof.
  unfold reload. apply preserves_bind; [apply reloadCollections_settled|].
  intros _. apply reloadGraphs_settled.
Qed.

Lemma bind_ok {A B} (m : M A) (f : A → M B) w a w' :
  m w = (Ok a, w') → (m ≫= f) w = f a w'.
Proof. intros H. unfold mbind, M_bind. by rewrite H. Qed.

(** *** reloadCollections and reloadGraphs on a status other than 200 *)

Lemma reloadCollections_not_200 s tr :
  let req := get (api_url s +:+ "/collection") in
  let r := server env tr req in
  status_code r ≠ 200 →
  reloadCollections env (world s tr)
  = (match subscript (body r) "errorMessage" with
     | Ok msg => Raise (UpdateError msg (body r))
     | Raise x => Raise x
     end, world s (EvRequest req :: tr)).
Proof.
  cbn zeta. intros Hs. unfold reloadCollections, get. run.
  destruct (Z.eqb_spec (status_code (server env tr
              {| req_method := GET; req_url := api_url s +:+ "/collection";
                 req_data := None |})) 200) as [E|_]; [done|].
  run. by destruct (subscript _ "errorMessage").
Qed.

Lemma reloadGraphs_not_200 s tr :
  let req := get (api_url s +:+ "/gharial") in
  let r := server env tr req in
  status_code r ≠ 200 →
  reloadGraphs env (world s tr)
  = (match subscript (body r) "errorMessage" with
     | Ok msg => Raise (UpdateError msg (body r))
     | Raise x => Raise x
     end, world s (EvRequest req :: tr)).
Proof.
  cbn zeta. intros Hs. unfold reloadGraphs, get. run.
  destruct (Z.eqb_spec (status_code (server env tr
              {| req_method := GET; req_url := api_url s +:+ "/gharial";
                 req_data := None |})) 200) as [E|_]; [done|].
  run. by destruct (subscript _ "errorMessage").
Qed.

(** *** reloadCollections: the classification of the listing *)

Lemma load_colData_step s c tr item :
  collections s = Some c →
  load_colData env item (world s tr)
  = match classify_item env item with
    | Ok (k, cls, warning) =>
        (Ok tt, world (with_collections s (<[k := {| h_class := cls; h_data := item |}]> c))
                      (warning ++ tr))
    | Raise e => (Raise e, world s tr)
    end.
Proof.
  intros Hc. unfold load_colData, classify_item, setitem_collections, __getattribute__,
    set_collections, with_collections, try_except_KeyError, getCollectionClass, print,
    unknown_type_warning.
  unfold mbind at 1, result_bind. run.
  destruct (subscript item "name") as [nm|e]; run; [|done].
  destruct (as_name nm) as [k|e]; run; [|done].
  destruct (subscript item "isSystem") as [sys|e]; run; [|done].
  destruct (truthy sys); run; [by rewrite Hc|].
  destruct (registry env !! k) as [cls|]; run; [by rewrite Hc|].
  destruct (subscript item "type") as [ty|e]; run; [|done].
  destruct (py_eq_int ty (COLLECTION_EDGE_TYPE env)); run; [by rewrite Hc|].
  destruct (py_eq_int ty (COLLECTION_DOCUMENT_TYPE env)); run; [by rewrite Hc|].
  destruct (format_d ty) as [code|e]; run; [by rewrite Hc|done].
Qed.

Lemma classify_item_name item k cls warning :
  classify_item env item = Ok (k, cls, warning) → subscript item "name" = Ok (JStr k).
Proof.
  unfold classify_item, mbind, result_bind.
  destruct (subscript item "name") as [nm|e]; [|done].
  destruct nm; simpl; try done.
  destruct (subscript item "isSystem") as [sys|e]; [|done].
  destruct (truthy sys); [by intros [= ->]|].
  destruct (registry env !! s) as [cls'|]; [by intros [= ->]|].
  destruct (subscript item "type") as [ty|e]; [|done].
  destruct (py_eq_int ty _); [by intros [= ->]|].
  destruct (py_eq_int ty _); [by intros [= ->]|].
  destruct (format_d ty); [by intros [= ->]|done].
Qed.

Lemma classify_item_rules item k cls warning :
  classify_item env item = Ok (k, cls, warning) →
  ∃ sys, subscript item "isSystem" = Ok sys
    ∧ cls = if truthy sys then COL_SystemCollection
            else match registry env !! k with
                 | Some registered => registered
                 | None =>
                     match subscript item "type" with
                     | Ok ty => if py_eq_int ty (COLLECTION_EDGE_TYPE env)
                                then COL_Edges else COL_Collection
                     | Raise _ => COL_Collection
                     end
                 end.
Proof.
  intros H. pose proof (classify_item_name _ _ _ _ H) as Hn. revert H.
  unfold classify_item, mbind, result_bind. rewrite Hn. simpl.
  destruct (subscript item "isSystem") as [sys|e]; [|done].
  intros H. exists sys. split; [done|]. revert H.
  destruct (truthy sys); [by intros [= <- _]|].
  destruct (registry env !! k) as [cls'|]; [by intros [= <- _]|].
  destruct (subscript item "type") as [ty|e]; [|done].
  destruct (py_eq_int ty (COLLECTION_EDGE_TYPE env)); [by intros [= <- _]|].
  destruct (py_eq_int ty (COLLECTION_DOCUMENT_TYPE env)); [by intros [= <- _]|].
  destruct (format_d ty); [by intros [= <- _]|done].
Qed.

(** The loop of [reloadCollections], when it completes. *)
Lemma load_loop_ok items : ∀ s c tr w1,
  collections s = Some c →
  for_each items (load_colData env) (world s tr) = (Ok tt, w1) →
  ∃ c1, self w1 = with_collections s c1
    ∧ (∀ k, is_Some (c1 !! k)
            ↔ is_Some (c !! k) ∨ ∃ item, item ∈ items ∧ subscript item "name" = Ok (JStr k))
    ∧ (∀ k h, c1 !! k = Some h →
              c !! k = Some h
              ∨ (h_data h ∈ items
                 ∧ ∃ warning, classify_item env (h_data h) = Ok (k, h_class h, warning)))
    ∧ (∀ item k cls warning ev, item ∈ items →
         classify_item env item = Ok (k, cls, warning) → ev ∈ warning → ev ∈ trace w1)
    ∧ (∀ ev, ev ∈ tr → ev ∈ trace w1).
Proof.
  induction items as [|item rest IH]; intros s c tr w1 Hc.
  - intros [= <-]. exists c. simpl. split.
    { unfold with_collections. destruct s; simpl in *. by rewrite Hc. }
    split; [|split; [|split]]; set_solver.
  - cbn [for_each]. unfold mbind at 1, M_bind at 1.
    rewrite (load_colData_step _ _ _ _ Hc).
    destruct (classify_item env item) as [[[k cls] warning]|e] eqn:Hitem; [|done].
    intros Hrest. apply IH with (c := <[k := {| h_class := cls; h_data := item |}]> c)
      in Hrest as (c1 & Hself & Hdom & Hhandles & Hwarn & Htr); [|done].
    exists c1. split; [done|]. split; [|split; [|split]].
    + intros k'. rewrite Hdom, lookup_insert. split.
      * intros [Hk | (it & Hin & Hn)].
        -- destruct (decide (k = k')) as [<-|]; [|by left].
           right. exists item. split; [set_solver|]. by eapply classify_item_name.
        -- right. exists it. split; [set_solver|done].
      * intros [Hk | (it & Hin & Hn)].
        -- left. by destruct (decide (k = k')).
        -- apply elem_of_cons in Hin as [->|Hin].
           ++ left. apply classify_item_name in Hitem.
              assert (k = k') as -> by congruence.
              rewrite decide_True by done. eauto.
           ++ right. eauto.
    + intros k' h Hk'. destruct (Hhandles _ _ Hk') as [Hins | (Hin & Hcl)].
      * rewrite lookup_insert in Hins. destruct (decide (k = k')) as [<-|].
        -- injection Hins as <-. right. simpl. split; [set_solver|eauto].
        -- by left.
      * right. split; [set_solver|done].
    + intros it k' cls' warning' ev Hin Hcl Hev.
      apply elem_of_cons in Hin as [->|Hin]; [|by eapply Hwarn].
      apply Htr. rewrite Hitem in Hcl. injection Hcl as <- <- <-. set_solver.
    + intros ev Hev. apply Htr. set_solver.
Qed.

(** The loop completes when every item classifies. *)
Lemma load_loop_total items : ∀ s c tr,
  collections s = Some c →
  (∀ item, item ∈ items → ∃ r, classify_item env item = Ok r) →
  (for_each items (load_colData env) (world s tr)).1 = Ok tt.
Proof.
  induction items as [|item rest IH]; intros s c tr Hc Hall; [done|].
  cbn [for_each]. unfold mbind at 1, M_bind at 1.
  rewrite (load_colData_step _ _ _ _ Hc).
  destruct (Hall item) as [[[k cls] warning] ->]; [set_solver|].
  eapply IH; [done|]. intros it Hin. apply Hall. set_solver.
Qed.

Lemma reloadCollections_200 s tr :
  let req := get (api_url s +:+ "/collection") in
  let r := server env tr req in
  let w0 := world (with_collections s ∅) (EvRequest req :: tr) in
  status_code r = 200 →
  reloadCollections env (world s tr)
  = match subscript (body r) "result" with
    | Ok res =>
        match iterate res with
        | Ok items => for_each items (load_colData env) w0
        | Raise e => (Raise e, w0)
        end
    | Raise e => (Raise e, w0)
    end.
Proof.
  cbn zeta. intros Hs. unfold get in Hs.
  unfold reloadCollections, get, with_collections, set_collections.
  run. rewrite Hs. run.
  destruct (subscript _ "result") as [res|e]; run; [|done].
  by destruct (iterate res).
Qed.

Lemma reloadGraphs_keeps_collections (X : option (gmap string ColHandle)) (T : list Event) :
  preserves (λ w, collections (self w) = X ∧ ∀ ev, ev ∈ T → ev ∈ trace w)
            (reloadGraphs env).
Proof.
  unfold reloadGraphs, getGraphsURL, getURL, session_get, load_graphData, setitem_graphs.
  repeat preserves_step.
  all: intros w [H1 H2]; simpl; split; [done|]; intros ev Hev; set_solver.
Qed.

Lemma classify_item_well_formed item k sys t :
  subscript item "name" = Ok (JStr k) →
  subscript item "isSystem" = Ok sys →
  subscript item "type" = Ok (JNum t) →
  ∃ cls warning, classify_item env item = Ok (k, cls, warning)
    ∧ (truthy sys = false → registry env !! k = None →
       t ≠ COLLECTION_EDGE_TYPE env → t ≠ COLLECTION_DOCUMENT_TYPE env →
       cls = COL_Collection ∧ warning = [unknown_type_warning (pretty t)]).
Proof.
  intros Hn Hs Ht. unfold classify_item, mbind, result_bind. rewrite Hn, Hs. simpl.
  destruct (truthy sys);
    [eexists _, _; split; [reflexivity|]; intros; congruence|].
  destruct (registry env !! k);
    [eexists _, _; split; [reflexivity|]; intros; congruence|].
  rewrite Ht. simpl.
  destruct (Z.eqb_spec t (COLLECTION_EDGE_TYPE env));
    [eexists _, _; split; [reflexivity|]; intros; congruence|].
  destruct (Z.eqb_spec t (COLLECTION_DOCUMENT_TYPE env));
    [eexists _, _; split; [reflexivity|]; intros; congruence|].
  eexists _, _. split; [reflexivity|]. done.
Qed.

(** C3 (amended).  After a successful [reload()] the keys of the collections
    mapping are exactly the names of the items of the listing, and every
    entry is the handle built from one of those items, of the class
    [classify_item] gives: system by [isSystem]; otherwise the class
    registered under the item's name when there is one; otherwise edge or
    document by [type]; every warning of the classification is in the
    trace.  An item with a string name, an [isSystem] field and an integer
    [type] always classifies, an unknown type code of an unregistered
    non-system item giving the generic document class and the warning; and
    a status 200 listing whose items all classify makes [reloadCollections]
    return. *)
Theorem reload_collections_classified n conn c g tr :
  let s := database n conn c g in
  let r := server env tr (get (api_url s +:+ "/collection")) in
  (∀ w', reload env (world s tr) = (Ok tt, w') →
     ∃ res items c',
       subscript (body r) "result" = Ok res ∧ iterate res = Ok items
       ∧ collections (self w') = Some c'
       ∧ (∀ k, is_Some (c' !! k)
               ↔ ∃ item, item ∈ items ∧ subscript item "name" = Ok (JStr k))
       ∧ (∀ k h, c' !! k = Some h →
            h_data h ∈ items
            ∧ (∃ warning, classify_item env (h_data h) = Ok (k, h_class h, warning))
            ∧ ∃ sys, subscript (h_data h) "isSystem" = Ok sys
                ∧ h_class h
                  = if truthy sys then COL_SystemCollection
                    else match registry env !! k with
                         | Some registered => registered
                         | None =>
                             match subscript (h_data h) "type" with
                             | Ok ty => if py_eq_int ty (COLLECTION_EDGE_TYPE env)
                                        then COL_Edges else COL_Collection
                             | Raise _ => COL_Collection
                             end
                         end)
       ∧ (∀ item k cls warning ev, item ∈ items →
            classify_item env item = Ok (k, cls, warning) → ev ∈ warning → ev ∈ trace w'))
  ∧ (∀ item k sys t,
       subscript item "name" = Ok (JStr k) → subscript item "isSystem" = Ok sys →
       subscript item "type" = Ok (JNum t) →
       ∃ cls warning, classify_item env item = Ok (k, cls, warning)
         ∧ (truthy sys = false → registry env !! k = None →
            t ≠ COLLECTION_EDGE_TYPE env → t ≠ COLLECTION_DOCUMENT_TYPE env →
            cls = COL_Collection ∧ warning = [unknown_type_warning (pretty t)]))
  ∧ (∀ res items, status_code r = 200 →
       subscript (body r) "result" = Ok res → iterate res = Ok items →
       (∀ item, item ∈ items → ∃ x, classify_item env item = Ok x) →
       (reloadCollections env (world s tr)).1 = Ok tt).
Proof.
  cbn zeta. split; [|split].
  - intros w'. unfold reload, mbind, M_bind.
    destruct (reloadCollections env _) as [[[]|e] w1] eqn:Hrc; [|done].
    intros Hrg.
    destruct (Z.eqb_spec (status_code (server env tr
                (get (api_url (database n conn c g) +:+ "/collection")))) 200) as [Hs|Hs].
    2:{ rewrite reloadCollections_not_200 in Hrc by done.
        by destruct (subscript _ "errorMessage"). }
    rewrite reloadCollections_200 in Hrc by done.
    destruct (subscript _ "result") as [res|e]; [|done].
    destruct (iterate res) as [items|e] eqn:Hit; [|done].
    apply load_loop_ok with (c := ∅) in Hrc as (c1 & Hself & Hdom & Hhandles & Hwarn & _);
      [|done].
    pose proof (reloadGraphs_keeps_collections (Some c1) (trace w1) w1) as Hkeep.
    rewrite Hrg in Hkeep. simpl in Hkeep.
    destruct Hkeep as [Hc' Htr]; [by rewrite Hself|].
    exists res, items, c1. split; [done|]. split; [done|]. split; [done|].
    split; [|split].
    + intros k. rewrite Hdom, lookup_empty. split; [|eauto].
      intros [[? [=]]|?]; done.
    + intros k h Hk. destruct (Hhandles _ _ Hk) as [Hin|[Hin [warning Hcl]]].
      { by rewrite lookup_empty in Hin. }
      split; [done|]. split; [eauto|]. by eapply classify_item_rules.
    + intros item k cls warning ev Hin Hcl Hev. apply Htr. by eapply Hwarn.
  - intros item k sys t. apply classify_item_well_formed.
  - intros res items Hs Hres Hit Hall.
    rewrite reloadCollections_200 by done. rewrite Hres, Hit.
    by eapply load_loop_total.
Qed.

(** *** Counting the listing requests of a reload *)

Lemma append_cancel (b x y : string) : b +:+ x = b +:+ y → x = y.
Proof. induction b as [|ch b IH]; simpl; [done|]. intros [= H]. by apply IH. Qed.

Lemma graphs_url_is_not_collections_url (b : string) :
  String.eqb (b +:+ "/gharial") (b +:+ "/collection") = false.
Proof. apply String.eqb_neq. intros H. by apply append_cancel in H. Qed.

Ltac listed_leaf :=
  let w := fresh "w" in
  intros w [? ?]; unfold listed, api_url in *; simpl; eauto.

Lemma load_colData_listed base k colData :
  preserves (listed base k) (load_colData env colData).
Proof.
  unfold load_colData, setitem_collections, print.
  repeat preserves_step; listed_leaf.
Qed.

Lemma load_graphData_listed base k graphData :
  preserves (listed base k) (load_graphData env graphData).
Proof.
  unfold load_graphData, setitem_graphs.
  repeat preserves_step; listed_leaf.
Qed.

Lemma reloadCollections_listed base k w :
  listed base k w → listed base (S k) (reloadCollections env w).2.
Proof.
  intros [Hu Hk]. unfold reloadCollections.
  rewrite (bind_ok _ _ w (base +:+ "/collection") w)
    by (rewrite <- Hu; reflexivity).
  erewrite bind_ok by reflexivity.
  match goal with |- listed _ _ (?m ?w1).2 =>
    assert (preserves (listed base (S k)) m) as Hp
  end.
  { repeat preserves_step; try apply load_colData_listed; listed_leaf. }
  apply Hp. split; [done|]. unfold listings in *. simpl.
  rewrite String.eqb_refl. simpl. by rewrite Hk.
Qed.

Lemma reloadGraphs_listed base k w :
  listed base k w → listed base k (reloadGraphs env w).2.
Proof.
  intros [Hu Hk]. unfold reloadGraphs.
  rewrite (bind_ok _ _ w (base +:+ "/gharial") w)
    by (rewrite <- Hu; reflexivity).
  erewrite bind_ok by reflexivity.
  match goal with |- listed _ _ (?m ?w1).2 =>
    assert (preserves (listed base k) m) as Hp
  end.
  { repeat preserves_step; try apply load_graphData_listed; listed_leaf. }
  apply Hp. split; [done|]. unfold listings in *. simpl.
  by rewrite graphs_url_is_not_collections_url.
Qed.

Lemma reload_listed base k w :
  listed base k w → listed base (S k) (reload env w).2.
Proof.
  intros H. apply reloadCollections_listed in H. unfold reload, mbind, M_bind.
  destruct (reloadCollections env w) as [[[]|e] w1]; simpl in *; [|done].
  by apply reloadGraphs_listed.
Qed.

(** *** __getitem__ *)

(** C2. [database[name]] returns the handle of the local mapping when the
    name is present, the world untouched (no reload).  When it is absent,
    the outcome is that of one run of [reload] followed by one more lookup:
    the handle if the name is now present, the not-found error if it is
    still absent (and the error of the reload if the reload itself failed);
    the final world is the one that single reload left, and the trace asks
    for the collection listing exactly once more than before. *)
Theorem getitem_reloads_at_most_once n conn c g tr collectionName :
  let s := database n conn c g in
  let w := world s tr in
  let u := api_url s +:+ "/collection" in
  match c !! collectionName with
  | Some h => __getitem__ env collectionName w = (Ok h, w)
  | None =>
      listings u (trace (__getitem__ env collectionName w).2) = S (listings u tr)
      ∧ match reload env w with
        | (Raise e, w') => __getitem__ env collectionName w = (Raise e, w')
        | (Ok _, w') =>
            ∃ c', collections (self w') = Some c'
              ∧ __getitem__ env collectionName w
                = (match c' !! collectionName with
                   | Some h => Ok h
                   | None => Raise (not_found collectionName)
                   end, w')
        end
  end.
Proof.
  cbn zeta. unfold __getitem__, try_except_KeyError, dict_subscript. run.
  destruct (c !! collectionName) as [h|]; [done|]. simpl.
  pose proof (reload_settled Database n conn (world (database n conn c g) tr)) as Hset.
  pose proof (reload_listed (api_url (database n conn c g))
                (listings (api_url (database n conn c g) +:+ "/collection") tr)
                (world (database n conn c g) tr)) as Hlist.
  destruct (reload env _) as [[[]|e] w'] eqn:Hreload; simpl in Hset, Hlist.
  - destruct Hset as (Hcls & _ & _ & [c' Hc'] & _); [unfold settled; simpl; eauto 10|].
    rewrite Hc'.
    split.
    + destruct (c' !! collectionName); simpl; apply Hlist; by split.
    + exists c'. split; [done|]. by destruct (c' !! collectionName).
  - split; [|done]. simpl. apply Hlist. by split.
Qed.

(** *** createCollection *)

Lemma registry_Collection : registry env !! "Collection" = Some COL_Collection.
Proof. unfold registry. by rewrite lookup_insert_eq. Qed.

Lemma registry_Edges : registry env !! "Edges" = Some COL_Edges.
Proof. unfold registry. rewrite lookup_insert_ne by done. by rewrite lookup_insert_eq. Qed.

Lemma getCollectionClass_generic className :
  is_generic className →
  ∃ cls, getCollectionClass env className = Ok cls ∧ _properties cls = None.
Proof.
  unfold getCollectionClass. intros [-> | ->].
  - rewrite registry_Collection. eauto.
  - rewrite registry_Edges. eauto.
Qed.

Lemma is_generic_test className :
  is_generic className →
  negb (String.eqb className "Collection") && negb (String.eqb className "Edges") = false.
Proof. by intros [-> | ->]. Qed.

Lemma not_generic_test className :
  ¬ is_generic className →
  negb (String.eqb className "Collection") && negb (String.eqb className "Edges") = true.
Proof.
  unfold is_generic. intros H.
  destruct (String.eqb_spec className "Collection"); [tauto|].
  destruct (String.eqb_spec className "Edges"); [tauto|]. done.
Qed.

Lemma size_pos_of_lookup {A} (m : gmap string A) k v :
  m !! k = Some v → Nat.ltb 0 (size m) = true.
Proof.
  intros H. apply Nat.ltb_lt.
  destruct (size m) eqn:E; [|lia].
  apply map_size_empty_iff in E. subst. by rewrite lookup_empty in H.
Qed.

(** What lines 120-134 do on an instance of [Database]. *)
Lemma post_collection_database n conn c g tr cls props :
  let s := database n conn c g in
  let req := collection_post env s cls props in
  let r := server env tr req in
  let col := {| h_class := cls; h_data := body r |} in
  let failure :=
    match subscript (body r) "errorMessage" with
    | Ok msg => Raise (CreationError msg (Some (body r)))
    | Raise x => Raise x
    end in
  post_collection env cls props (world s tr)
  = if Z.eqb (status_code r) 200 then
      match subscript (body r) "error" with
      | Ok e =>
          if truthy e then (failure, world s (EvRequest req :: tr))
          else (Ok col,
                world (database n conn (<[col_name env col := col]> c) g)
                      (EvRequest req :: tr))
      | Raise x => (Raise x, world s (EvRequest req :: tr))
      end
    else (failure, world s (EvRequest req :: tr)).
Proof.
  cbn zeta. unfold post_collection, collection_post, wire_type, post.
  destruct (cc_isEdges cls); run.
  all: destruct (Z.eqb _ 200); run.
  all: try (destruct (subscript _ "errorMessage"); reflexivity).
  all: destruct (subscript _ "error") as [e|x]; run; [|reflexivity].
  all: destruct (truthy e); run.
  all: try (destruct (subscript _ "errorMessage"); reflexivity).
  all: unfold dict_subscript; by rewrite lookup_insert_eq.
Qed.

(** C4. The local pre-validation errors of [createCollection] are raised
    with the world untouched, hence before any request: a name already in
    the local collections mapping gives a Creation error (for a named type
    the name is the type name, for a generic type the [name] property), and
    a generic type name without a [name] property gives the validation
    error. *)
Theorem createCollection_prevalidation_sends_nothing n conn c g tr className props :
  let w := world (database n conn c g) tr in
  (∀ cls h, ¬ is_generic className → getCollectionClass env className = Ok cls →
      c !! className = Some h →
      createCollection env className props w
      = (Raise (CreationError (duplicate_message n className) None), w))
  ∧ (∀ colName h, is_generic className → props !! "name" = Some (JStr colName) →
      c !! colName = Some h →
      createCollection env className props w
      = (Raise (CreationError (duplicate_message n colName) None), w))
  ∧ (is_generic className → props !! "name" = None →
      createCollection env className props w
      = (Raise (ValueError missing_name_message), w)).
Proof.
  cbn zeta. split; [|split].
  - intros cls h Hng Hcls Hc. unfold createCollection.
    rewrite (not_generic_test _ Hng). run. rewrite Hcls. run.
    unfold dict_subscript. rewrite lookup_insert_eq. run.
    rewrite Hc. reflexivity.
  - intros colName h Hg Hn Hc. unfold createCollection.
    rewrite (is_generic_test _ Hg).
    destruct (getCollectionClass_generic _ Hg) as (cls & -> & _). run.
    rewrite (size_pos_of_lookup _ _ _ Hn), Hn. run.
    unfold dict_subscript. rewrite Hn. run.
    rewrite Hc. reflexivity.
  - intros Hg Hn. unfold createCollection.
    rewrite (is_generic_test _ Hg).
    destruct (getCollectionClass_generic _ Hg) as (cls & -> & Hp). run.
    rewrite Hp. destruct (Nat.ltb 0 (size props)).
    + rewrite Hn. reflexivity.
    + rewrite lookup_empty. reflexivity.
Qed.

Lemma post_collection_trace n conn c g tr cls props :
  trace (post_collection env cls props (world (database n conn c g) tr)).2
  = EvRequest (collection_post env (database n conn c g) cls props) :: tr.
Proof.
  rewrite post_collection_database.
  destruct (Z.eqb _ 200); [|reflexivity].
  destruct (subscript _ "error") as [e|x]; [|reflexivity].
  destruct (truthy e); reflexivity.
Qed.

(** C1 (amended).  The properties posted by [createCollection] are the
    caller's alone whenever the caller supplies at least one (plus the forced
    [name] of a named type, and the wire [type]); the declared defaults
    [_properties] of the type are posted only when the caller supplies no
    property at all. *)
Theorem createCollection_posts_caller_properties_or_defaults
    n conn c g tr className cls props :
  let s := database n conn c g in
  let sent := trace (createCollection env className props (world s tr)).2 in
  getCollectionClass env className = Ok cls →
  (¬ is_generic className → c !! className = None → (0 < size props)%nat →
     sent = EvRequest (collection_post env s cls (<["name" := JStr className]> props)) :: tr)
  ∧ (¬ is_generic className → c !! className = None → size props = 0%nat →
     sent = EvRequest (collection_post env s cls
                         (<["name" := JStr className]> (default ∅ (_properties cls)))) :: tr)
  ∧ (∀ colName, is_generic className → props !! "name" = Some (JStr colName) →
     c !! colName = None →
     sent = EvRequest (collection_post env s cls props) :: tr).
Proof.
  cbn zeta. intros Hcls. unfold createCollection. rewrite Hcls. run.
  split; [|split].
  - intros Hng Hc Hsize. rewrite (not_generic_test _ Hng).
    apply Nat.ltb_lt in Hsize. rewrite Hsize. run.
    unfold dict_subscript. rewrite lookup_insert_eq. run. rewrite Hc.
    apply post_collection_trace.
  - intros Hng Hc Hsize. rewrite (not_generic_test _ Hng).
    rewrite Hsize. run.
    unfold dict_subscript. rewrite lookup_insert_eq. run. rewrite Hc.
    rewrite post_collection_trace. by destruct (_properties cls).
  - intros colName Hg Hn Hc. rewrite (is_generic_test _ Hg).
    rewrite (size_pos_of_lookup _ _ _ Hn), Hn. run.
    unfold dict_subscript. rewrite Hn. run. rewrite Hc.
    apply post_collection_trace.
Qed.

(** *** createGraph *)

Lemma find_append {A} (f : A → bool) (l1 l2 : list A) :
  find f (l1 ++ l2)%list = match find f l1 with Some x => Some x | None => find f l2 end.
Proof. induction l1 as [|x l1 IH]; simpl; [done|]. by destruct (f x). Qed.

Lemma checkCollectionList_find lst :
  _checkCollectionList env lst
  = match find (rejected env) (map (pair false) lst) with
    | Some ref => Raise (rejection ref)
    | None => Ok tt
    end.
Proof.
  induction lst as [|colName rest IH]; simpl; [done|].
  unfold rejected at 1. simpl. by destruct (isCollection env colName).
Qed.

Lemma check_edgeDefinitions_find defs ed :
  check_edgeDefinitions env defs ed
  = match find (rejected env) (concat (map references_of defs)) with
    | Some ref => Raise (rejection ref)
    | None => Ok (ed ++ map (toJson env) defs)%list
    end.
Proof.
  revert ed. induction defs as [|e rest IH]; intros ed; simpl.
  - by rewrite app_nil_r.
  - unfold rejected at 1. simpl.
    destruct (isEdgeCollection env (edgesCollection e)); simpl; [|done].
    rewrite !find_append, !checkCollectionList_find.
    destruct (find _ (map (pair false) (fromCollections e))); [done|].
    destruct (find _ (map (pair false) (toCollections e))); [done|].
    unfold mbind, result_bind. rewrite IH, <- app_assoc. done.
Qed.

(** [createGraph] on an instance of [Database], by the outcome of the
    local checks. *)
Lemma createGraph_database n conn c g tr graphName cls createCollections
    isSmart numberOfShards smartGraphAttribute :
  let s := database n conn c g in
  let req := graph_post env s cls graphName isSmart numberOfShards smartGraphAttribute in
  let r := server env tr req in
  getGraphClass env graphName = Ok cls →
  createGraph env graphName createCollections isSmart numberOfShards smartGraphAttribute
    (world s tr)
  = match find (rejected env) (references cls) with
    | Some ref => (Raise (rejection ref), world s tr)
    | None =>
        if Z.eqb (status_code r) 201 || Z.eqb (status_code r) 202 then
          match subscript (body r) "graph" with
          | Ok gd =>
              match graph_init_raises env (EvRequest req :: tr) (Some cls) gd with
              | Some e => (Raise e, world s (EvRequest req :: tr))
              | None =>
                  let h := {| gh_class := Some cls; gh_data := gd |} in
                  (Ok h, world (database n conn c (<[graphName := h]> g))
                               (EvRequest req :: tr))
              end
          | Raise x => (Raise x, world s (EvRequest req :: tr))
          end
        else
          (match subscript (body r) "errorMessage" with
           | Ok msg => Raise (CreationError msg (Some (body r)))
           | Raise x => Raise x
           end, world s (EvRequest req :: tr))
    end.
Proof.
  cbn zeta. intros Hcls. unfold createGraph, references, graph_post, post.
  rewrite Hcls, find_append. run. rewrite check_edgeDefinitions_find.
  destruct (find _ (concat _)); run; [done|].
  rewrite checkCollectionList_find.
  destruct (find _ (map _ _)); run; [done|].
  destruct (_ || _); run.
  - destruct (subscript _ "graph"); run; [|done].
    destruct (graph_init_raises env _ _ _); run; [done|].
    unfold dict_subscript. by rewrite lookup_insert_eq.
  - by destruct (subscript _ "errorMessage").
Qed.

Lemma rejected_unknown ref : isCollection env ref.2 = false → rejected env ref = true.
Proof.
  unfold rejected, isCollection, isEdgeCollection.
  destruct (registry env !! ref.2); [done|]. by destruct ref.1.
Qed.

Lemma find_some_of_elem {A} (f : A → bool) (l : list A) x :
  x ∈ l → f x = true → ∃ y, find f l = Some y.
Proof.
  induction 1 as [x l | x y l _ IH]; simpl; intros Hf.
  - rewrite Hf. eauto.
  - destruct (f y); eauto.
Qed.

(** C5 (amended).  When a collection referenced by the graph class (edge
    collection, from/to endpoint or orphan) is not a known collection type,
    [createGraph] raises a validation error and sends nothing; the message
    names the first referenced collection, in visiting order, that fails its
    check, where the edge collection of a definition must be a known edge
    collection type and every other one a known collection type. *)
Theorem createGraph_names_first_rejected n conn c g tr graphName cls ref
    createCollections isSmart numberOfShards smartGraphAttribute :
  let w := world (database n conn c g) tr in
  getGraphClass env graphName = Ok cls →
  ref ∈ references cls →
  isCollection env ref.2 = false →
  ∃ first, find (rejected env) (references cls) = Some first
    ∧ createGraph env graphName createCollections isSmart numberOfShards
        smartGraphAttribute w
      = (Raise (rejection first), w).
Proof.
  cbn zeta. intros Hcls Hin Hunknown.
  destruct (find_some_of_elem (rejected env) _ _ Hin (rejected_unknown _ Hunknown))
    as [first Hfirst].
  exists first. split; [done|].
  rewrite (createGraph_database _ _ _ _ _ _ cls) by done. by rewrite Hfirst.
Qed.

(** *** Failed calls and the registries *)

(** [createCollection] either stops in its local checks, the world
    untouched, or goes on to lines 120-134. *)
Lemma createCollection_cases n conn c g tr className props :
  let w := world (database n conn c g) tr in
  (∃ e, createCollection env className props w = (Raise e, w))
  ∨ (∃ cls p, createCollection env className props w = post_collection env cls p w).
Proof.
  cbn zeta. unfold createCollection.
  destruct (getCollectionClass env className) as [cls|e]; run; [|eauto].
  destruct (negb _ && negb _); run.
  - unfold dict_subscript. rewrite lookup_insert_eq. run.
    destruct (c !! className); run; eauto.
  - match goal with |- context [?m !! "name"] => destruct (m !! "name") as [v|] eqn:E end;
      run; [|eauto].
    unfold dict_subscript. rewrite E. run.
    destruct v; run; eauto.
    match goal with |- context [c !! ?k] => destruct (c !! k) end; run; eauto.
Qed.

Lemma cons_neq_self {A} (x : A) (l : list A) : l ≠ x :: l.
Proof. intros H. apply (f_equal length) in H. simpl in H. lia. Qed.

Lemma createCollection_failure_frame n conn c g tr className props e w' :
  createCollection env className props (world (database n conn c g) tr) = (Raise e, w') →
  self w' = database n conn c g.
Proof.
  destruct (createCollection_cases n conn c g tr className props)
    as [(e' & ->) | (cls & p & ->)].
  - by intros [= _ <-].
  - rewrite post_collection_database.
    destruct (Z.eqb _ 200).
    + destruct (subscript _ "error") as [v|x]; [|by intros [= _ <-]].
      destruct (truthy v); [by intros [= _ <-]|done].
    + by intros [= _ <-].
Qed.

Lemma createCollection_server_failure n conn c g tr className props req :
  let s := database n conn c g in
  let out := createCollection env className props (world s tr) in
  let r := server env tr req in
  trace out.2 = EvRequest req :: tr →
  status_code r ≠ 200 ∨ (∃ v, subscript (body r) "error" = Ok v ∧ truthy v = true) →
  (∃ e, out.1 = Raise e) ∧ self out.2 = s.
Proof.
  cbn zeta.
  destruct (createCollection_cases n conn c g tr className props)
    as [(e' & ->) | (cls & p & ->)].
  - simpl. intros H. by destruct (cons_neq_self _ _ H).
  - rewrite post_collection_trace. intros [= <-].
    rewrite post_collection_database. intros Hfail.
    set (r := server env tr _) in *.
    assert (∃ e, match subscript (body r) "errorMessage" with
                 | Ok msg => Raise (CreationError msg (Some (body r)))
                 | Raise x => Raise x
                 end = @Raise ColHandle e) as Hraise
      by (destruct (subscript _ "errorMessage"); eauto).
    destruct (Z.eqb_spec (status_code r) 200) as [Hs|Hs]; [|done].
    destruct Hfail as [Hfail | (v & -> & ->)]; done.
Qed.

Lemma createGraph_failure_frame n conn c g tr graphName a b d f e w' :
  createGraph env graphName a b d f (world (database n conn c g) tr) = (Raise e, w') →
  self w' = database n conn c g.
Proof.
  destruct (getGraphClass env graphName) as [cls|x] eqn:Hcls;
    [|unfold createGraph; rewrite Hcls; run; by intros [= _ <-]].
  rewrite (createGraph_database _ _ _ _ _ _ cls) by done.
  destruct (find _ _); [by intros [= _ <-]|].
  destruct (_ || _).
  - destruct (subscript _ "graph"); [|by intros [= _ <-]].
    by destruct (graph_init_raises env _ _ _); intros [= _ <-].
  - by intros [= _ <-].
Qed.

Lemma createGraph_server_failure n conn c g tr graphName a b d f req :
  let s := database n conn c g in
  let out := createGraph env graphName a b d f (world s tr) in
  let r := server env tr req in
  trace out.2 = EvRequest req :: tr →
  status_code r ≠ 201 → status_code r ≠ 202 →
  (∃ e, out.1 = Raise e) ∧ self out.2 = s.
Proof.
  cbn zeta.
  destruct (getGraphClass env graphName) as [cls|x] eqn:Hcls.
  - rewrite (createGraph_database _ _ _ _ _ _ cls) by done.
    destruct (find _ _).
    { simpl. intros H. by destruct (cons_neq_self _ _ H). }
    set (req' := graph_post _ _ _ _ _ _ _).
    assert (∀ o : result GraphHandle * World,
              trace o.2 = EvRequest req' :: tr → trace o.2 = EvRequest req :: tr →
              req' = req) as Hreq by (intros o -> [= ->]; done).
    intros Htr H1 H2.
    assert (req' = req) as ->.
    { eapply Hreq; [|exact Htr].
      destruct (_ || _); [|done].
      destruct (subscript _ "graph"); [|done].
      by destruct (graph_init_raises env _ _ _). }
    destruct (Z.eqb_spec (status_code (server env tr req)) 201); [done|].
    destruct (Z.eqb_spec (status_code (server env tr req)) 202); [done|].
    simpl. split; [|done]. destruct (subscript _ "errorMessage"); eauto.
  - unfold createGraph. rewrite Hcls. run.
    intros H. by destruct (cons_neq_self _ _ H).
Qed.

(** C10. Failed calls leave the registries as they were: [reloadCollections]
    and [reloadGraphs] on a status other than 200 raise with [self]
    unchanged; [createCollection] whose POST is answered by a status other
    than 200 or by a set error flag, and [createGraph] whose POST is answered
    by a status other than 201 and 202, raise with [self] unchanged; and
    whenever either of the two raises, for whatever reason, [self] is
    unchanged. *)
Theorem failed_calls_leave_registries_unchanged n conn c g tr :
  let s := database n conn c g in
  let w := world s tr in
  (status_code (server env tr (get (api_url s +:+ "/collection"))) ≠ 200 →
     (∃ e, (reloadCollections env w).1 = Raise e) ∧ self (reloadCollections env w).2 = s)
  ∧ (status_code (server env tr (get (api_url s +:+ "/gharial"))) ≠ 200 →
     (∃ e, (reloadGraphs env w).1 = Raise e) ∧ self (reloadGraphs env w).2 = s)
  ∧ (∀ className props req,
       let out := createCollection env className props w in
       trace out.2 = EvRequest req :: tr →
       status_code (server env tr req) ≠ 200
       ∨ (∃ v, subscript (body (server env tr req)) "error" = Ok v ∧ truthy v = true) →
       (∃ e, out.1 = Raise e) ∧ self out.2 = s)
  ∧ (∀ graphName createCollections isSmart numberOfShards smartGraphAttribute req,
       let out := createGraph env graphName createCollections isSmart numberOfShards
                    smartGraphAttribute w in
       trace out.2 = EvRequest req :: tr →
       status_code (server env tr req) ≠ 201 → status_code (server env tr req) ≠ 202 →
       (∃ e, out.1 = Raise e) ∧ self out.2 = s)
  ∧ (∀ className props e w',
       createCollection env className props w = (Raise e, w') → self w' = s)
  ∧ (∀ graphName createCollections isSmart numberOfShards smartGraphAttribute e w',
       createGraph env graphName createCollections isSmart numberOfShards
         smartGraphAttribute w = (Raise e, w') → self w' = s).
Proof.
  cbn zeta. repeat split.
  - rewrite reloadCollections_not_200 by done.
    destruct (subscript _ "errorMessage"); simpl; eauto.
  - by rewrite reloadCollections_not_200.
  - rewrite reloadGraphs_not_200 by done.
    destruct (subscript _ "errorMessage"); simpl; eauto.
  - by rewrite reloadGraphs_not_200.
  - by eapply createCollection_server_failure.
  - by eapply createCollection_server_failure.
  - by eapply createGraph_server_failure.
  - by eapply createGraph_server_failure.
  - intros. by eapply createCollection_failure_frame.
  - intros. by eapply createGraph_failure_frame.
Qed.

(** *** dropAllCollections *)

Lemma getitem_hit n conn c g tr collectionName h :
  c !! collectionName = Some h →
  __getitem__ env collectionName (world (database n conn c g) tr)
  = (Ok h, world (database n conn c g) tr).
Proof.
  intros H. unfold __getitem__, try_except_KeyError, dict_subscript. run. by rewrite H.
Qed.

Lemma elem_of_keys {A} (d : gmap string A) k : k ∈ keys d ↔ is_Some (d !! k).
Proof.
  unfold keys. rewrite list_elem_of_fmap. split.
  - intros ([k' v] & -> & H). apply elem_of_map_to_list in H. eauto.
  - intros [v H]. exists (k, v). split; [done|]. by apply elem_of_map_to_list.
Qed.


Section Drop.

Hypothesis delete_returns : ∀ tr, delete_raises env tr = None.




End Drop.







(** *** validateAQLQuery *)

(** The URL of the POST comes from [getCursorsURL], whose definition at
    line 36 Python rejects: the call ends there, whatever the arguments and
    the state of the object, and nothing is sent. *)
Lemma validateAQLQuery_outcome w query bindVars options :
  validateAQLQuery env query bindVars options w
  = (Raise (SyntaxError "invalid syntax"), w).
Proof. reflexivity. Qed.

(** *** transaction *)

Lemma transaction_on_Database n conn c g tr cols action waitForSync lockTimeout params :
  transaction env cols action waitForSync lockTimeout params (world (database n conn c g) tr)
  = (Raise (AttributeError "geTransactionURL"),
     world (database n conn c g) (EvReportStart action :: tr)).
Proof. unfold transaction. run. reflexivity. Qed.

(** *** DBHandle: the same methods on a lazily initialised object *)

Lemma blind_bind {A B} (m : M A) (f : A → M B) :
  class_blind m → (∀ a, class_blind (f a)) → class_blind (m ≫= f).
Proof.
  intros Hm Hf cls w Hw. unfold mbind, M_bind.
  destruct (Hm cls w Hw) as [-> Hl].
  destruct (m w) as [[a|e] w']; simpl in *; [|done].
  destruct (Hf a cls w' Hl) as [-> Hl']. done.
Qed.

Lemma blind_ret {A} (a : A) : class_blind (mret a).
Proof. by intros cls w Hw. Qed.

Lemma blind_lift {A} (r : result A) : class_blind (lift r).
Proof. by intros cls w Hw. Qed.

Lemma blind_raise {A} (e : exn) : class_blind (raise (A := A) e).
Proof. by intros cls w Hw. Qed.

Lemma blind_emit ev : class_blind (emit ev).
Proof. by intros cls w Hw. Qed.

Lemma blind_print line : class_blind (print line).
Proof. by intros cls w Hw. Qed.

Lemma blind_session_request r : class_blind (session_request env r).
Proof. by intros cls w Hw. Qed.

Lemma blind_call_delete ev : class_blind (call_delete env ev).
Proof.
  intros cls w Hw. unfold call_delete. simpl. by destruct (delete_raises env _).
Qed.

Lemma blind_new_graph cls graphData : class_blind (new_graph env cls graphData).
Proof.
  intros c w Hw. unfold new_graph. simpl. by destruct (graph_init_raises env _ _ _).
Qed.

Lemma blind_getURL : class_blind getURL.
Proof. by intros cls w Hw. Qed.

Lemma blind_attr_name : class_blind attr_name.
Proof. by intros cls w Hw. Qed.

Lemma blind_set_collections c : class_blind (set_collections c).
Proof. intros cls w [_ Hg]. split; [done|]. split; simpl; eauto. Qed.

Lemma blind_set_graphs g : class_blind (set_graphs g).
Proof. intros cls w [Hc _]. split; [done|]. split; simpl; eauto. Qed.

Lemma blind_getattribute_collections :
  class_blind (__getattribute__ "collections" collections).
Proof.
  intros cls w Hw. unfold __getattribute__. simpl. by destruct (collections (self w)).
Qed.

Lemma blind_getattribute_graphs : class_blind (__getattribute__ "graphs" graphs).
Proof.
  intros cls w Hw. unfold __getattribute__. simpl. by destruct (graphs (self w)).
Qed.

Lemma blind_attr_collections : class_blind (attr_collections env).
Proof.
  intros cls w [[c Hc] Hg]. unfold attr_collections, getattr. simpl. rewrite Hc.
  split; [done|]. split; simpl; [by rewrite Hc|done].
Qed.

Lemma blind_attr_graphs : class_blind (attr_graphs env).
Proof.
  intros cls w [Hc [g Hg]]. unfold attr_graphs, getattr. simpl. rewrite Hg.
  split; [done|]. split; simpl; [done|by rewrite Hg].
Qed.

Lemma blind_try {A} (m handler : M A) :
  class_blind m → class_blind handler → class_blind (try_except_KeyError m handler).
Proof.
  intros Hm Hh cls w Hw. unfold try_except_KeyError.
  destruct (Hm cls w Hw) as [-> Hl].
  destruct (m w) as [[a|e] w']; simpl in *; [done|].
  destruct (is_KeyError e); [|done]. by destruct (Hh cls w' Hl) as [-> Hl'].
Qed.

Lemma blind_for_each {A} (l : list A) (body : A → M unit) :
  (∀ x, class_blind (body x)) → class_blind (for_each l body).
Proof.
  intros Hb. induction l as [|x l IH]; simpl.
  - apply blind_ret.
  - apply blind_bind; [apply Hb|]. by intros _.
Qed.

Create HintDb blind.
Hint Resolve blind_ret blind_lift blind_raise blind_emit blind_print
  blind_session_request blind_call_delete blind_new_graph blind_getURL blind_attr_name
  blind_set_collections blind_set_graphs blind_getattribute_collections
  blind_getattribute_graphs blind_attr_collections blind_attr_graphs : blind.

Ltac blind_step :=
  cbv beta zeta;
  first
    [ solve [auto with blind]
    | apply blind_bind; [|intros ?]
    | apply blind_try
    | apply blind_for_each; intros ?
    | match goal with |- class_blind (if ?b then _ else _) => destruct b end
    | match goal with |- class_blind (match ?x with _ => _ end) => destruct x end ].

Ltac blind := repeat blind_step.

Lemma blind_reloadCollections : class_blind (reloadCollections env).
Proof.
  unfold reloadCollections, getCollectionsURL, session_get, load_colData,
    setitem_collections. blind.
Qed.

Lemma blind_reloadGraphs : class_blind (reloadGraphs env).
Proof.
  unfold reloadGraphs, getGraphsURL, session_get, load_graphData, setitem_graphs. blind.
Qed.

Lemma blind_reload : class_blind (reload env).
Proof.
  unfold reload. apply blind_bind; [apply blind_reloadCollections|].
  intros _. apply blind_reloadGraphs.
Qed.

Hint Resolve blind_reloadCollections blind_reloadGraphs blind_reload : blind.

Lemma blind_getitem k : class_blind (__getitem__ env k).
Proof. unfold __getitem__. blind. Qed.

Hint Resolve blind_getitem : blind.

Lemma blind_createCollection className props :
  class_blind (createCollection env className props).
Proof.
  unfold createCollection, post_collection, getCollectionsURL, session_post. blind.
Qed.

Lemma blind_createGraph graphName a b d f :
  class_blind (createGraph env graphName a b d f).
Proof. unfold createGraph, getGraphsURL, session_post. blind. Qed.

Lemma blind_hasCollection k : class_blind (hasCollection env k).
Proof. unfold hasCollection. blind. Qed.

Lemma blind_hasGraph k : class_blind (hasGraph env k).
Proof. unfold hasGraph. blind. Qed.

Lemma blind_dropAllCollections : class_blind (dropAllCollections env).
Proof. unfold dropAllCollections. blind. Qed.

Lemma blind_explainAQLQuery query bindVars allPlans :
  class_blind (explainAQLQuery env query bindVars allPlans).
Proof. unfold explainAQLQuery, getExplainURL, session_post. blind. Qed.

Lemma blind_validateAQLQuery query bindVars options :
  class_blind (validateAQLQuery env query bindVars options).
Proof. unfold validateAQLQuery, getCursorsURL, session_post. blind. Qed.

(** [Database.__init__] assigns both registries before it reads anything,
    so it runs the same on an instance of either class. *)
Lemma init_class_blind cls n conn tr :
  Database___init__ env conn n (world (under_construction cls n conn) tr)
  = ((Database___init__ env conn n (world (under_construction Database n conn) tr)).1,
     as_class cls
       (Database___init__ env conn n (world (under_construction Database n conn) tr)).2).
Proof.
  unfold Database___init__.
  repeat (erewrite bind_ok by reflexivity). simpl.
  pose proof (blind_reload cls
    (world {| py_class := Database; name := n; connection := conn;
              collections := Some ∅; graphs := Some ∅ |} tr)) as [H _].
  { split; simpl; eauto. }
  exact H.
Qed.

Lemma init_loaded n conn tr :
  loaded (Database___init__ env conn n (world (under_construction Database n conn) tr)).2.
Proof.
  unfold Database___init__. repeat (erewrite bind_ok by reflexivity). simpl.
  apply (blind_reload Database). split; simpl; eauto.
Qed.

Lemma first_registry_access {A} k (field : Self → option A) n conn tr :
  field (under_construction DBHandle n conn) = None →
  (∀ cls w, field (self (as_class cls w)) = field (self w)) →
  let built := Database___init__ env conn n (world (under_construction Database n conn) tr) in
  getattr env k field (world (fresh_handle n conn) tr)
  = (match built.1 with
     | Ok _ => match field (self built.2) with
               | Some v => Ok v
               | None => Raise (AttributeError k)
               end
     | Raise e => Raise e
     end, as_class DBHandle built.2).
Proof.
  intros Hnone Hfield. cbn zeta. unfold getattr, fresh_handle.
  fold (under_construction DBHandle n conn). cbn [self]. rewrite Hnone.
  cbn [py_class under_construction]. unfold DBHandle___getattr__.
  repeat (erewrite bind_ok by reflexivity). cbn [self name connection].
  unfold mbind, M_bind. fold (under_construction DBHandle n conn).
  rewrite init_class_blind.
  destruct (Database___init__ env conn n _) as [[[]|e] w']; cbn [fst snd]; [|done].
  unfold __getattribute__. rewrite Hfield. by destruct (field (self w')).
Qed.

(** C9 (amended).  A DBHandle holds only connection and name after its
    constructor, and reading [name], [connection] or a URL method leaves it
    so.  The first read of [collections] or [graphs] runs
    [Database.__init__] on it, with the outcome, the requests and the
    registries of constructing a Database, and then reads the attribute.
    Once both registries are assigned, reading them returns them with the
    world untouched, and each of reloadCollections, reloadGraphs, reload,
    createCollection, createGraph, hasCollection, hasGraph, indexed lookup,
    dropAllCollections, explainAQLQuery and validateAQLQuery gives on the
    DBHandle the result, the calls and the registries it gives on a Database
    holding the same registries. *)
Theorem DBHandle_loads_on_first_registry_access n conn tr :
  let h := fresh_handle n conn in
  let built := Database___init__ env conn n (world (under_construction Database n conn) tr) in
  (∀ n0 conn0, DBHandle___init__ conn n (world (under_construction DBHandle n0 conn0) tr)
               = (Ok tt, world h tr))
  ∧ collections h = None ∧ graphs h = None
  ∧ attr_name (world h tr) = (Ok n, world h tr)
  ∧ attr_connection (world h tr) = (Ok conn, world h tr)
  ∧ getURL (world h tr) = (Ok (api_url h), world h tr)
  ∧ (∃ c g,
       collections (self built.2) = Some c ∧ graphs (self built.2) = Some g
       ∧ attr_collections env (world h tr)
         = (match built.1 with Ok _ => Ok c | Raise e => Raise e end,
            as_class DBHandle built.2)
       ∧ attr_graphs env (world h tr)
         = (match built.1 with Ok _ => Ok g | Raise e => Raise e end,
            as_class DBHandle built.2))
  ∧ (∀ w c g, py_class (self w) = DBHandle →
       collections (self w) = Some c → graphs (self w) = Some g →
       attr_collections env w = (Ok c, w) ∧ attr_graphs env w = (Ok g, w))
  ∧ class_blind (reloadCollections env) ∧ class_blind (reloadGraphs env)
  ∧ class_blind (reload env)
  ∧ (∀ className props, class_blind (createCollection env className props))
  ∧ (∀ graphName createCollections isSmart numberOfShards smartGraphAttribute,
       class_blind (createGraph env graphName createCollections isSmart numberOfShards
                      smartGraphAttribute))
  ∧ (∀ k, class_blind (hasCollection env k)) ∧ (∀ k, class_blind (hasGraph env k))
  ∧ (∀ k, class_blind (__getitem__ env k))
  ∧ class_blind (dropAllCollections env)
  ∧ (∀ query bindVars allPlans, class_blind (explainAQLQuery env query bindVars allPlans))
  ∧ (∀ query bindVars options, class_blind (validateAQLQuery env query bindVars options)).
Proof.
  cbn zeta. repeat match goal with |- _ ∧ _ => split end; try done;
    try solve [ apply blind_reloadCollections | apply blind_reloadGraphs
              | apply blind_reload | apply blind_createCollection
              | apply blind_createGraph | apply blind_hasCollection
              | apply blind_hasGraph | apply blind_getitem
              | apply blind_dropAllCollections | apply blind_explainAQLQuery
              | apply blind_validateAQLQuery ].
  - destruct (init_loaded n conn tr) as [[c Hc] [g Hg]].
    exists c, g. split; [done|]. split; [done|].
    unfold attr_collections, attr_graphs. rewrite !first_registry_access by done.
    rewrite Hc, Hg. done.
  - intros w c g _ Hc Hg. unfold attr_collections, attr_graphs, getattr.
    by rewrite Hc, Hg.
Qed.

(** ** Beyond the claims: the rest of the listing code *)

(** *** The requests and the frame of the two reloads *)

Lemma requests_cons_request r tr : requests (EvRequest r :: tr) = (requests tr ++ [r])%list.
Proof. unfold requests. simpl. by rewrite omap_app. Qed.

Lemma requests_cons_print line tr : requests (EvPrint line :: tr) = requests tr.
Proof. unfold requests. simpl. by rewrite omap_app, app_nil_r. Qed.

Lemma reloadCollections_requests w :
  requests (trace (reloadCollections env w).2)
  = (requests (trace w) ++ [get (api_url (self w) +:+ "/collection")])%list
  ∧ graphs (self (reloadCollections env w).2) = graphs (self w)
  ∧ py_class (self (reloadCollections env w).2) = py_class (self w)
  ∧ name (self (reloadCollections env w).2) = name (self w)
  ∧ connection (self (reloadCollections env w).2) = connection (self w).
Proof.
  unfold reloadCollections.
  rewrite (bind_ok _ _ w (api_url (self w) +:+ "/collection") w) by reflexivity.
  erewrite bind_ok by reflexivity.
  match goal with |- context [(?m ?w1).2] =>
    assert (preserves (λ w', requests (trace w')
                             = (requests (trace w)
                                ++ [get (api_url (self w) +:+ "/collection")])%list
                           ∧ graphs (self w') = graphs (self w)
                           ∧ py_class (self w') = py_class (self w)
                           ∧ name (self w') = name (self w)
                           ∧ connection (self w') = connection (self w)) m) as Hp
  end.
  { repeat preserves_step.
    all: intros w' (H1 & H2 & H3 & H4 & H5); simpl; rewrite ?requests_cons_print; done. }
  apply Hp. simpl. by rewrite requests_cons_request.
Qed.

Lemma reloadGraphs_requests w :
  requests (trace (reloadGraphs env w).2)
  = (requests (trace w) ++ [get (api_url (self w) +:+ "/gharial")])%list
  ∧ collections (self (reloadGraphs env w).2) = collections (self w)
  ∧ py_class (self (reloadGraphs env w).2) = py_class (self w)
  ∧ name (self (reloadGraphs env w).2) = name (self w)
  ∧ connection (self (reloadGraphs env w).2) = connection (self w).
Proof.
  unfold reloadGraphs.
  rewrite (bind_ok _ _ w (api_url (self w) +:+ "/gharial") w) by reflexivity.
  erewrite bind_ok by reflexivity.
  match goal with |- context [(?m ?w1).2] =>
    assert (preserves (λ w', requests (trace w')
                             = (requests (trace w)
                                ++ [get (api_url (self w) +:+ "/gharial")])%list
                           ∧ collections (self w') = collections (self w)
                           ∧ py_class (self w') = py_class (self w)
                           ∧ name (self w') = name (self w)
                           ∧ connection (self w') = connection (self w)) m) as Hp
  end.
  { repeat preserves_step.
    all: intros w' (H1 & H2 & H3 & H4 & H5); simpl; done. }
  apply Hp. simpl. by rewrite requests_cons_request.
Qed.

(** X1. Whatever the server answers and however they end, [reloadCollections]
    sends exactly one request, the GET of the collection listing, and leaves
    the graphs mapping, the name and the connection as they were;
    [reloadGraphs] sends exactly the GET of the graph listing and leaves the
    collections mapping, the name and the connection as they were. *)
Theorem reloads_send_one_listing_each_and_keep_the_other_registry w :
  (requests (trace (reloadCollections env w).2)
   = (requests (trace w) ++ [get (api_url (self w) +:+ "/collection")])%list
   ∧ graphs (self (reloadCollections env w).2) = graphs (self w)
   ∧ name (self (reloadCollections env w).2) = name (self w)
   ∧ connection (self (reloadCollections env w).2) = connection (self w))
  ∧ (requests (trace (reloadGraphs env w).2)
     = (requests (trace w) ++ [get (api_url (self w) +:+ "/gharial")])%list
     ∧ collections (self (reloadGraphs env w).2) = collections (self w)
     ∧ name (self (reloadGraphs env w).2) = name (self w)
     ∧ connection (self (reloadGraphs env w).2) = connection (self w)).
Proof.
  destruct (reloadCollections_requests w) as (H1 & H2 & _ & H3 & H4).
  destruct (reloadGraphs_requests w) as (H5 & H6 & _ & H7 & H8).
  done.
Qed.

(** X2. [reload] asks for the collection listing first and for the graph
    listing only when [reloadCollections] returned: a reload that returns
    has sent exactly these two requests, in this order, and a reload that
    raises has sent the first, or both. *)
Theorem reload_requests_collections_then_graphs w :
  let first := get (api_url (self w) +:+ "/collection") in
  let second := get (api_url (self w) +:+ "/gharial") in
  let out := reload env w in
  (out.1 = Ok tt → requests (trace out.2) = (requests (trace w) ++ [first; second])%list)
  ∧ (requests (trace out.2) = (requests (trace w) ++ [first])%list
     ∨ requests (trace out.2) = (requests (trace w) ++ [first; second])%list)
  ∧ ((reloadCollections env w).1 ≠ Ok tt →
     out = ((reloadCollections env w).1, (reloadCollections env w).2)
     ∧ requests (trace out.2) = (requests (trace w) ++ [first])%list).
Proof.
  cbn zeta. unfold reload, mbind, M_bind.
  destruct (reloadCollections_requests w) as (H1 & _ & _ & H3 & H4).
  destruct (reloadCollections env w) as [[[]|e] w1] eqn:Hrc; simpl in *.
  - destruct (reloadGraphs_requests w1) as (H5 & _).
    assert (api_url (self w1) = api_url (self w)) as Hu
      by (unfold api_url; by rewrite H3, H4).
    rewrite Hu, H1, <- app_assoc in H5. simpl in H5. split; [done|]. split; [by right|done].
  - split; [done|]. split; [by left|done].
Qed.

(** *** reloadGraphs: the classes of the graph handles *)

Lemma load_graphData_ok s g tr item w1 :
  graphs s = Some g →
  load_graphData env item (world s tr) = (Ok tt, w1) →
  ∃ key, graph_key item = Ok key
    ∧ graph_init_raises env tr (built_class env tr key item) item = None
    ∧ w1 = world (with_graphs s (<[key := {| gh_class := built_class env tr key item;
                                             gh_data := item |}]> g)) tr.
Proof.
  intros Hg. unfold load_graphData, graph_key, built_class, setitem_graphs,
    __getattribute__, set_graphs, with_graphs, try_except_KeyError, getGraphClass.
  unfold mbind at 1, result_bind. run.
  destruct (subscript item "_key") as [k|e]; run.
  - destruct k as [| | |key| |]; run; try done.
    destruct (graphClasses env !! key) as [cls|] eqn:Hreg; run.
    + destruct (graph_init_raises env tr (Some cls) item) as [e|] eqn:Hcls; run.
      * destruct (is_KeyError e); [|done].
        destruct (graph_init_raises env tr None item) as [e'|] eqn:Hgen; run; [done|].
        rewrite Hg. intros [= <-]. exists key. by rewrite Hreg, Hcls.
      * rewrite Hg. intros [= <-]. exists key. by rewrite Hreg, Hcls.
    + destruct (graph_init_raises env tr None item) as [e'|] eqn:Hgen; run; [done|].
      rewrite Hg. intros [= <-]. exists key. by rewrite Hreg.
  - destruct (is_KeyError e); [|done].
    by destruct (graph_init_raises env tr None item).
Qed.

(** The loop of [reloadGraphs], when it completes. *)
Lemma load_graphs_loop_ok items : ∀ s g tr w1,
  graphs s = Some g →
  for_each items (load_graphData env) (world s tr) = (Ok tt, w1) →
  ∃ g1, w1 = world (with_graphs s g1) tr
    ∧ (∀ k, is_Some (g1 !! k)
            ↔ is_Some (g !! k) ∨ ∃ item, item ∈ items ∧ graph_key item = Ok k)
    ∧ (∀ k h, g1 !! k = Some h →
              g !! k = Some h
              ∨ (gh_data h ∈ items ∧ graph_key (gh_data h) = Ok k
                 ∧ gh_class h = built_class env tr k (gh_data h)
                 ∧ graph_init_raises env tr (gh_class h) (gh_data h) = None)).
Proof.
  induction items as [|item rest IH]; intros s g tr w1 Hg.
  - intros [= <-]. exists g. split.
    { unfold with_graphs. destruct s; simpl in *. by rewrite Hg. }
    split; set_solver.
  - cbn [for_each]. unfold mbind at 1, M_bind at 1.
    destruct (load_graphData env item (world s tr)) as [[[]|e] w0] eqn:Hstep; [|done].
    destruct (load_graphData_ok _ _ _ _ _ Hg Hstep) as (key & Hitem & Hinit & ->).
    intros Hrest.
    apply IH with (g := <[key := {| gh_class := built_class env tr key item;
                                    gh_data := item |}]> g)
      in Hrest as (g1 & -> & Hdom & Hhandles); [|done].
    exists g1. split; [done|]. split.
    + intros k. rewrite Hdom, lookup_insert. split.
      * intros [Hk | (it & Hin & Hn)].
        -- destruct (decide (key = k)) as [<-|]; [|by left].
           right. exists item. split; [set_solver|done].
        -- right. exists it. split; [set_solver|done].
      * intros [Hk | (it & Hin & Hn)].
        -- left. by destruct (decide (key = k)).
        -- apply elem_of_cons in Hin as [->|Hin].
           ++ left. assert (key = k) as -> by congruence.
              rewrite decide_True by done. eauto.
           ++ right. eauto.
    + intros k h Hk. destruct (Hhandles _ _ Hk) as [Hins | (Hin & Hkey & Hcl)].
      * rewrite lookup_insert in Hins. destruct (decide (key = k)) as [<-|].
        -- injection Hins as <-. right. simpl. split; [set_solver|done].
        -- by left.
      * right. split; [set_solver|done].
Qed.

Lemma reloadGraphs_200 s tr :
  let req := get (api_url s +:+ "/gharial") in
  let r := server env tr req in
  let w0 := world (with_graphs s ∅) (EvRequest req :: tr) in
  status_code r = 200 →
  reloadGraphs env (world s tr)
  = match subscript (body r) "graphs" with
    | Ok gs =>
        match iterate gs with
        | Ok items => for_each items (load_graphData env) w0
        | Raise e => (Raise e, w0)
        end
    | Raise e => (Raise e, w0)
    end.
Proof.
  cbn zeta. intros Hs. unfold get in Hs.
  unfold reloadGraphs, get, with_graphs, set_graphs.
  run. rewrite Hs. run.
  destruct (subscript _ "graphs") as [gs|e]; run; [|done].
  by destruct (iterate gs).
Qed.

(** X3. When [reloadGraphs] returns, the graphs mapping has been replaced:
    its keys are exactly the [_key]s of the items of the listing, and every
    entry is the handle that a constructor built without raising from one
    of those items: the constructor of the graph type registered under the
    key, and that of the generic Graph when no type is registered or when
    the registered constructor raised; the collections mapping is as before
    and the only request sent is the listing. *)
Theorem reloadGraphs_registers_listed_graphs n conn c g tr w' :
  let s := database n conn c g in
  let req := get (api_url s +:+ "/gharial") in
  let r := server env tr req in
  let tr' := EvRequest req :: tr in
  reloadGraphs env (world s tr) = (Ok tt, w') →
  ∃ gs items g',
    status_code r = 200
    ∧ subscript (body r) "graphs" = Ok gs ∧ iterate gs = Ok items
    ∧ w' = world (database n conn c g') tr'
    ∧ (∀ k, is_Some (g' !! k) ↔ ∃ item, item ∈ items ∧ graph_key item = Ok k)
    ∧ (∀ k h, g' !! k = Some h →
         gh_data h ∈ items ∧ graph_key (gh_data h) = Ok k
         ∧ gh_class h = built_class env tr' k (gh_data h)
         ∧ graph_init_raises env tr' (gh_class h) (gh_data h) = None).
Proof.
  cbn zeta. intros Hrg.
  destruct (Z.eqb_spec (status_code (server env tr
              (get (api_url (database n conn c g) +:+ "/gharial")))) 200) as [Hs|Hs].
  2:{ rewrite reloadGraphs_not_200 in Hrg by done.
      by destruct (subscript _ "errorMessage"). }
  rewrite reloadGraphs_200 in Hrg by done.
  destruct (subscript _ "graphs") as [gs|e]; [|done].
  destruct (iterate gs) as [items|e] eqn:Hit; [|done].
  apply load_graphs_loop_ok with (g := ∅) in Hrg as (g1 & -> & Hdom & Hhandles); [|done].
  exists gs, items, g1. split; [done|]. split; [done|]. split; [done|].
  split; [done|]. split.
  - intros k. rewrite Hdom, lookup_empty. split; [|eauto].
    intros [[? [=]]|?]; done.
  - intros k h Hk. destruct (Hhandles _ _ Hk) as [Hin|?]; [|done].
    by rewrite lookup_empty in Hin.
Qed.

(** *** Failures of a reload that do change the registries *)

Lemma reloadCollections_ok_keys s tr w1 :
  let r := server env tr (get (api_url s +:+ "/collection")) in
  reloadCollections env (world s tr) = (Ok tt, w1) →
  ∃ res items c1,
    subscript (body r) "result" = Ok res ∧ iterate res = Ok items
    ∧ self w1 = with_collections s c1
    ∧ (∀ k, is_Some (c1 !! k)
            ↔ ∃ item, item ∈ items ∧ subscript item "name" = Ok (JStr k)).
Proof.
  cbn zeta. intros Hrc.
  destruct (Z.eqb_spec (status_code (server env tr
              (get (api_url s +:+ "/collection")))) 200) as [Hs|Hs].
  2:{ rewrite reloadCollections_not_200 in Hrc by done.
      by destruct (subscript _ "errorMessage"). }
  rewrite reloadCollections_200 in Hrc by done.
  destruct (subscript _ "result") as [res|e]; [|done].
  destruct (iterate res) as [items|e] eqn:Hit; [|done].
  apply load_loop_ok with (c := ∅) in Hrc as (c1 & Hself & Hdom & _); [|done].
  exists res, items, c1. split; [done|]. split; [done|]. split; [done|].
  intros k. rewrite Hdom, lookup_empty. split; [|eauto].
  intros [[? [=]]|?]; done.
Qed.

(** X4. [reload] is not atomic: when the collection listing was loaded and
    the graph listing is answered by a status other than 200, [reload]
    raises, the server's message present, the Update error of the graph
    listing, with the collections mapping already replaced by the new
    listing and the graphs mapping as it was. *)
Theorem reload_keeps_new_collections_when_graphs_fail n conn c g tr w1 msg :
  let s := database n conn c g in
  let r := server env tr (get (api_url s +:+ "/collection")) in
  let req2 := get (api_url s +:+ "/gharial") in
  let r2 := server env (trace w1) req2 in
  reloadCollections env (world s tr) = (Ok tt, w1) →
  status_code r2 ≠ 200 →
  subscript (body r2) "errorMessage" = Ok msg →
  ∃ res items c1,
    subscript (body r) "result" = Ok res ∧ iterate res = Ok items
    ∧ (∀ k, is_Some (c1 !! k)
            ↔ ∃ item, item ∈ items ∧ subscript item "name" = Ok (JStr k))
    ∧ reload env (world s tr)
      = (Raise (UpdateError msg (body r2)),
         world (database n conn c1 g) (EvRequest req2 :: trace w1)).
Proof.
  cbn zeta. intros Hrc Hs Hmsg.
  destruct (reloadCollections_ok_keys _ _ _ Hrc) as (res & items & c1 & Hres & Hit & Hself & Hdom).
  exists res, items, c1. split; [done|]. split; [done|]. split; [done|].
  unfold reload. erewrite bind_ok by exact Hrc.
  destruct w1 as [s1 tr1]. simpl in *. subst s1.
  change (with_collections (database n conn c g) c1) with (database n conn c1 g).
  rewrite reloadGraphs_not_200 by done.
  change (api_url (database n conn c1 g)) with (api_url (database n conn c g)).
  by rewrite Hmsg.
Qed.

(** X5. A collection listing answered by status 200 whose body is an object
    without [result] makes [reloadCollections] raise KeyError after the
    mapping has been emptied: every name, also one registered before, is
    then reported absent by [hasCollection]. *)
Theorem reloadCollections_without_result_empties_the_mapping n conn c g tr fields k :
  let s := database n conn c g in
  let req := get (api_url s +:+ "/collection") in
  let r := server env tr req in
  let out := reloadCollections env (world s tr) in
  status_code r = 200 →
  body r = JObj fields → assoc "result" fields = None →
  out = (Raise (KeyError "result"), world (database n conn ∅ g) (EvRequest req :: tr))
  ∧ hasCollection env k out.2 = (Ok false, out.2).
Proof.
  cbn zeta. intros Hs Hb Hf.
  rewrite reloadCollections_200 by done. rewrite Hb. simpl. by rewrite Hf.
Qed.

(** X6. After a [reload] that returned, [hasCollection] answers from the
    new listing alone, sending nothing: it is true exactly for the names of
    the items of the listing, so a collection registered before and no
    longer listed is reported absent. *)
Theorem hasCollection_after_reload_follows_the_listing n conn c g tr w' :
  let s := database n conn c g in
  let r := server env tr (get (api_url s +:+ "/collection")) in
  reload env (world s tr) = (Ok tt, w') →
  ∃ res items,
    subscript (body r) "result" = Ok res ∧ iterate res = Ok items
    ∧ ∀ k, ∃ b, hasCollection env k w' = (Ok b, w')
             ∧ (b = true ↔ ∃ item, item ∈ items ∧ subscript item "name" = Ok (JStr k)).
Proof.
  cbn zeta. unfold reload, mbind, M_bind.
  destruct (reloadCollections env _) as [[[]|e] w1] eqn:Hrc; [|done].
  intros Hrg.
  destruct (reloadCollections_ok_keys _ _ _ Hrc) as (res & items & c1 & Hres & Hit & Hself & Hdom).
  destruct (reloadGraphs_requests w1) as (_ & Hc & _). rewrite Hrg, Hself in Hc.
  simpl in Hc.
  exists res, items. split; [done|]. split; [done|]. intros k.
  exists (bool_decide (is_Some (c1 !! k))). split.
  - unfold hasCollection, attr_collections, getattr, mbind, M_bind. by rewrite Hc.
  - rewrite bool_decide_eq_true. apply Hdom.
Qed.

(** *** createCollection: what is posted and what a success registers *)

Lemma createCollection_cases_of_class n conn c g tr className cls props :
  let w := world (database n conn c g) tr in
  getCollectionClass env className = Ok cls →
  (∃ e, createCollection env className props w = (Raise e, w))
  ∨ (∃ p, createCollection env className props w = post_collection env cls p w).
Proof.
  cbn zeta. intros Hcls. unfold createCollection. rewrite Hcls. run.
  destruct (negb _ && negb _); run.
  - unfold dict_subscript. rewrite lookup_insert_eq. run.
    destruct (c !! className); run; eauto.
  - match goal with |- context [?m !! "name"] => destruct (m !! "name") as [v|] eqn:E end;
      run; [|eauto].
    unfold dict_subscript. rewrite E. run.
    destruct v; run; eauto.
    match goal with |- context [c !! ?k] => destruct (c !! k) end; run; eauto.
Qed.

Lemma createCollection_duplicate_named n conn c g tr className cls h props :
  ¬ is_generic className → getCollectionClass env className = Ok cls →
  c !! className = Some h →
  createCollection env className props (world (database n conn c g) tr)
  = (Raise (CreationError (duplicate_message n className) None),
     world (database n conn c g) tr).
Proof.
  intros Hng Hcls Hc. unfold createCollection.
  rewrite (not_generic_test _ Hng). run. rewrite Hcls. run.
  unfold dict_subscript. rewrite lookup_insert_eq. run.
  rewrite Hc. reflexivity.
Qed.

(** X7. For a named type the caller cannot choose the name nor the wire
    type: whatever properties are passed (also [name] and [type]), the body
    posted by [createCollection] holds the type name under [name] and the
    wire type of the resolved class under [type]. *)
Theorem createCollection_forces_name_and_type n conn c g tr className cls props :
  let s := database n conn c g in
  let out := createCollection env className props (world s tr) in
  getCollectionClass env className = Ok cls →
  ¬ is_generic className →
  c !! className = None →
  ∃ sent, trace out.2 = EvRequest (post (api_url s +:+ "/collection") sent) :: tr
    ∧ sent !! "name" = Some (JStr className)
    ∧ sent !! "type" = Some (JNum (wire_type env cls)).
Proof.
  cbn zeta. intros Hcls Hng Hc. unfold createCollection. rewrite Hcls. run.
  rewrite (not_generic_test _ Hng). run.
  unfold dict_subscript. rewrite lookup_insert_eq. run. rewrite Hc.
  rewrite post_collection_trace. unfold collection_post.
  eexists. split; [reflexivity|].
  rewrite lookup_insert_eq, lookup_insert_ne by done. by rewrite lookup_insert_eq.
Qed.

(** X8. When the POST of [createCollection] is answered by status 200 and
    an error flag that is false, the call returns the handle of the
    resolved class built from the response and registers it under the
    handle's name, the rest of the mapping untouched; from then on
    [hasCollection] of that name is true and the indexed lookup returns the
    same handle, both without a request; and when the handle's name is the
    name of the named type just created, creating it again fails locally
    with the duplicate Creation error. *)
Theorem createCollection_success_registers_the_handle
    n conn c g tr className cls props req v :
  let s := database n conn c g in
  let out := createCollection env className props (world s tr) in
  let r := server env tr req in
  let h := {| h_class := cls; h_data := body r |} in
  getCollectionClass env className = Ok cls →
  trace out.2 = EvRequest req :: tr →
  status_code r = 200 → subscript (body r) "error" = Ok v → truthy v = false →
  out = (Ok h, world (database n conn (<[col_name env h := h]> c) g) (EvRequest req :: tr))
  ∧ hasCollection env (col_name env h) out.2 = (Ok true, out.2)
  ∧ __getitem__ env (col_name env h) out.2 = (Ok h, out.2)
  ∧ (¬ is_generic className → col_name env h = className →
     ∀ props', createCollection env className props' out.2
               = (Raise (CreationError (duplicate_message n className) None), out.2)).
Proof.
  cbn zeta. intros Hcls.
  destruct (createCollection_cases_of_class n conn c g tr className cls props Hcls)
    as [(e' & ->) | (p & ->)].
  { simpl. intros H. by destruct (cons_neq_self _ _ H). }
  rewrite post_collection_trace. intros [= <-].
  rewrite post_collection_database. intros Hs He Ht. rewrite Hs, He, Ht. simpl.
  split; [done|]. split; [|split].
  - unfold hasCollection. run. rewrite lookup_insert_eq.
    by rewrite bool_decide_eq_true_2 by eauto.
  - apply getitem_hit. by rewrite lookup_insert_eq.
  - intros Hng Hname props'.
    eapply createCollection_duplicate_named; [done|done|].
    rewrite Hname. by rewrite lookup_insert_eq.
Qed.

(** X9. A type name that no collection type is registered under makes
    [createCollection] raise KeyError, and a graph name that no graph type
    is registered under makes [createGraph] raise KeyError, on any object
    and with the world untouched: nothing is sent. *)
Theorem unregistered_type_names_raise_KeyError w :
  (∀ className props, registry env !! className = None →
     createCollection env className props w = (Raise (KeyError className), w))
  ∧ (∀ graphName createCollections isSmart numberOfShards smartGraphAttribute,
       graphClasses env !! graphName = None →
       createGraph env graphName createCollections isSmart numberOfShards
         smartGraphAttribute w = (Raise (KeyError graphName), w)).
Proof.
  split.
  - intros className props H. unfold createCollection, getCollectionClass.
    rewrite H. by destruct w.
  - intros graphName a b d f H. unfold createGraph, getGraphClass.
    rewrite H. by destruct w.
Qed.

(** *** createGraph: what is posted and what a success registers *)

Lemma createGraph_trace n conn c g tr graphName cls a isSmart nos sga :
  getGraphClass env graphName = Ok cls →
  find (rejected env) (references cls) = None →
  trace (createGraph env graphName a isSmart nos sga (world (database n conn c g) tr)).2
  = EvRequest (graph_post env (database n conn c g) cls graphName isSmart nos sga) :: tr.
Proof.
  intros Hcls Hfind. rewrite (createGraph_database _ _ _ _ _ _ cls) by done.
  rewrite Hfind. destruct (_ || _); [|done].
  destruct (subscript _ "graph"); [|done].
  by destruct (graph_init_raises env _ _ _).
Qed.

(** X10. The body [createGraph] posts always holds [name],
    [edgeDefinitions] (the wire form of each edge definition, in order) and
    [orphanCollections]; it holds [isSmart] only when that argument is
    true, and [options] only when [numberOfShards] or [smartGraphAttribute]
    is true in Python's sense, with just the true ones inside (a shard count
    of 0 is not sent).  The argument [createCollections] changes nothing. *)
Theorem createGraph_posts_optional_keys_when_true
    n conn c g tr graphName cls createCollections isSmart numberOfShards smartGraphAttribute :
  let s := database n conn c g in
  let out := createGraph env graphName createCollections isSmart numberOfShards
               smartGraphAttribute (world s tr) in
  getGraphClass env graphName = Ok cls →
  find (rejected env) (references cls) = None →
  ∃ sent, trace out.2 = EvRequest (post (api_url s +:+ "/gharial") sent) :: tr
    ∧ sent !! "name" = Some (JStr graphName)
    ∧ sent !! "edgeDefinitions" = Some (JArr (map (toJson env) (_edgeDefinitions cls)))
    ∧ sent !! "orphanCollections" = Some (JArr (map JStr (_orphanedCollections cls)))
    ∧ sent !! "isSmart" = (if truthy isSmart then Some isSmart else None)
    ∧ sent !! "options"
      = match truthy numberOfShards, truthy smartGraphAttribute with
        | true, true => Some (JObj [("numberOfShards", numberOfShards);
                                    ("smartGraphAttribute", smartGraphAttribute)])
        | true, false => Some (JObj [("numberOfShards", numberOfShards)])
        | false, true => Some (JObj [("smartGraphAttribute", smartGraphAttribute)])
        | false, false => None
        end
    ∧ ∀ other, createGraph env graphName other isSmart numberOfShards
                 smartGraphAttribute (world s tr) = out.
Proof.
  cbn zeta. intros Hcls Hfind. rewrite createGraph_trace with (cls := cls) by done.
  unfold graph_post, graph_payload. eexists. split; [reflexivity|].
  destruct (truthy isSmart), (truthy numberOfShards), (truthy smartGraphAttribute);
    cbn [app truthy length Nat.eqb negb];
    repeat split; try reflexivity;
    repeat (first [rewrite lookup_insert_eq | rewrite lookup_insert_ne by done
                  | rewrite lookup_singleton_eq | rewrite lookup_singleton_ne by done]);
    reflexivity.
Qed.

(** X11. When the POST of [createGraph] is answered by status 201 or 202
    and the body holds [graph], the constructor of the resolved graph type
    is called on that description.  When it returns, the call returns the
    handle and registers it under the graph name; [hasGraph] of the name is
    then true and the collections mapping is untouched; there is no local
    check for an already registered graph: the same call made again posts
    again.  When the constructor raises, the call ends with its exception
    after the POST and registers nothing. *)
Theorem createGraph_success_registers_the_graph
    n conn c g tr graphName cls createCollections isSmart numberOfShards
    smartGraphAttribute gd :
  let s := database n conn c g in
  let req := graph_post env s cls graphName isSmart numberOfShards smartGraphAttribute in
  let r := server env tr req in
  let h := {| gh_class := Some cls; gh_data := gd |} in
  let out := createGraph env graphName createCollections isSmart numberOfShards
               smartGraphAttribute (world s tr) in
  getGraphClass env graphName = Ok cls →
  find (rejected env) (references cls) = None →
  status_code r = 201 ∨ status_code r = 202 →
  subscript (body r) "graph" = Ok gd →
  (graph_init_raises env (EvRequest req :: tr) (Some cls) gd = None →
   out = (Ok h, world (database n conn c (<[graphName := h]> g)) (EvRequest req :: tr))
   ∧ hasGraph env graphName out.2 = (Ok true, out.2)
   ∧ collections (self out.2) = Some c
   ∧ trace (createGraph env graphName createCollections isSmart numberOfShards
              smartGraphAttribute out.2).2
     = EvRequest req :: EvRequest req :: tr)
  ∧ (∀ e, graph_init_raises env (EvRequest req :: tr) (Some cls) gd = Some e →
     out = (Raise e, world s (EvRequest req :: tr))).
Proof.
  cbn zeta. intros Hcls Hfind Hs Hgd.
  rewrite (createGraph_database _ _ _ _ _ _ cls) by done. rewrite Hfind, Hgd.
  assert (Z.eqb (status_code (server env tr (graph_post env (database n conn c g) cls
            graphName isSmart numberOfShards smartGraphAttribute))) 201
          || Z.eqb (status_code (server env tr (graph_post env (database n conn c g) cls
            graphName isSmart numberOfShards smartGraphAttribute))) 202 = true) as ->.
  { destruct Hs as [-> | ->]; reflexivity. }
  split; [|by intros e ->].
  intros ->. cbn [fst snd]. split; [done|]. split; [|split; [done|]].
  - unfold hasGraph. run. rewrite lookup_insert_eq.
    by rewrite bool_decide_eq_true_2 by eauto.
  - by rewrite createGraph_trace with (cls := cls).
Qed.

(** *** transaction on either class *)

Lemma init_keeps_posts k conn n :
  preserves (λ w, posts_sent (trace w) = k) (Database___init__ env conn n).
Proof.
  unfold Database___init__, reload, reloadCollections, reloadGraphs, getCollectionsURL,
    getGraphsURL, getURL, session_get, load_colData, load_graphData,
    setitem_collections, setitem_graphs, print.
  repeat preserves_step.
  all: intros w H; simpl; done.
Qed.

Lemma transaction_outcome w cols action waitForSync lockTimeout params :
  let started := {| self := self w; trace := EvReportStart action :: trace w |} in
  transaction env cols action waitForSync lockTimeout params w
  = match py_class (self w) with
    | Database => (Raise (AttributeError "geTransactionURL"), started)
    | DBHandle =>
        match Database___init__ env (connection (self w)) (name (self w)) started with
        | (Ok _, w1) => (Raise (AttributeError "geTransactionURL"), w1)
        | (Raise e, w1) => (Raise e, w1)
        end
    end.
Proof.
  cbn zeta. unfold transaction. run.
  destruct (py_class (self w)); [done|].
  unfold DBHandle___getattr__. run.
  by destruct (Database___init__ env _ _ _) as [[[]|e] w1].
Qed.

(** X12. [transaction] never returns and never posts, on an object of
    either class and in any state: the lookup of [geTransactionURL] fails
    on a Database at once, and on a DBHandle after the initialisation that
    the failed lookup triggers (which only sends GET requests). *)
Theorem transaction_never_returns_nor_posts w cols action waitForSync lockTimeout params :
  let out := transaction env cols action waitForSync lockTimeout params w in
  (∃ e, out.1 = Raise e) ∧ posts_sent (trace out.2) = posts_sent (trace w).
Proof.
  cbn zeta. rewrite transaction_outcome.
  destruct (py_class (self w)); [simpl; eauto|].
  pose proof (init_keeps_posts (posts_sent (trace w)) (connection (self w)) (name (self w))
                {| self := self w; trace := EvReportStart action :: trace w |} eq_refl) as Hp.
  destruct (Database___init__ env _ _ _) as [[[]|e] w1]; simpl in *; eauto.
Qed.


(** *** DBHandle: a first use that fails, and the indexed lookup *)

(** X13. When the collection listing is answered by a status other than
    200, the first use of a fresh DBHandle raises the Update error of the
    listing and leaves the handle with both registries assigned and empty;
    the initialisation is not tried again: from then on [hasCollection] and
    [hasGraph] answer false for every name without sending anything. *)
Theorem failed_first_use_leaves_an_empty_handle n conn tr msg k :
  let h := fresh_handle n conn in
  let req := get (api_url h +:+ "/collection") in
  let r := server env tr req in
  let first := hasCollection env k (world h tr) in
  status_code r ≠ 200 →
  subscript (body r) "errorMessage" = Ok msg →
  first = (Raise (UpdateError msg (body r)),
           world {| py_class := DBHandle; name := n; connection := conn;
                    collections := Some ∅; graphs := Some ∅ |} (EvRequest req :: tr))
  ∧ ∀ k', hasCollection env k' first.2 = (Ok false, first.2)
          ∧ hasGraph env k' first.2 = (Ok false, first.2).
Proof.
  cbn zeta. intros Hs Hmsg.
  assert (hasCollection env k (world (fresh_handle n conn) tr)
          = (Raise (UpdateError msg (body (server env tr
                      (get (api_url (fresh_handle n conn) +:+ "/collection"))))),
             world {| py_class := DBHandle; name := n; connection := conn;
                      collections := Some ∅; graphs := Some ∅ |}
                   (EvRequest (get (api_url (fresh_handle n conn) +:+ "/collection"))
                    :: tr))) as ->.
  { pose proof (reloadCollections_not_200
                  {| py_class := DBHandle; name := n; connection := conn;
                     collections := Some ∅; graphs := Some ∅ |} tr Hs) as Hrc.
    cbn zeta in Hrc.
    change (api_url {| py_class := DBHandle; name := n; connection := conn;
                       collections := Some ∅; graphs := Some ∅ |})
      with (api_url (fresh_handle n conn)) in Hrc.
    rewrite Hmsg in Hrc.
    unfold hasCollection, DBHandle___getattr__, Database___init__, reload,
      set_name_connection, set_collections, set_graphs. run.
    unfold DBHandle___getattr__, Database___init__, reload,
      set_name_connection, set_collections, set_graphs. run.
    by rewrite Hrc. }
  split; [done|]. intros k'. split; reflexivity.
Qed.

(** X14. On a fresh DBHandle whose initialisation succeeds, the indexed
    lookup of a name the loaded listing does not hold asks for the
    collection listing twice: once for the initialisation that the first
    read of [collections] triggers, and once more for the reload of the
    miss. *)
Theorem getitem_on_fresh_handle_lists_twice n conn tr collectionName c :
  let built := Database___init__ env conn n (world (under_construction Database n conn) tr) in
  let u := api_url (fresh_handle n conn) +:+ "/collection" in
  built.1 = Ok tt →
  collections (self built.2) = Some c →
  c !! collectionName = None →
  listings u (trace (__getitem__ env collectionName (world (fresh_handle n conn) tr)).2)
  = S (S (listings u tr)).
Proof.
  cbn zeta. intros Hok Hc Hmiss.
  set (base := api_url (fresh_handle n conn)).
  set (built := Database___init__ env conn n (world (under_construction Database n conn) tr))
    in *.
  assert (listed base (S (listings (base +:+ "/collection") tr)) built.2) as Hl1.
  { subst built. unfold Database___init__.
    repeat (erewrite bind_ok by reflexivity).
    apply reload_listed. by split. }
  pose proof (init_loaded n conn tr) as Hloaded. fold built in Hloaded.
  set (w1 := as_class DBHandle built.2).
  assert (listed base (S (listings (base +:+ "/collection") tr)) w1) as Hl2.
  { destruct Hl1 as [Hu Hk]. split; [|done]. by rewrite <- Hu. }
  assert (loaded w1) as Hloaded1 by (destruct Hloaded; by split).
  unfold __getitem__, try_except_KeyError at 1.
  assert ((attr_collections env ≫= λ c0, lift (dict_subscript c0 collectionName))
            (world (fresh_handle n conn) tr) = (Raise (KeyError collectionName), w1)) as ->.
  { unfold attr_collections, mbind, M_bind.
    rewrite first_registry_access by done. fold built. rewrite Hok, Hc.
    unfold lift, dict_subscript. by rewrite Hmiss. }
  cbn [is_KeyError].
  pose proof (reload_listed _ _ _ Hl2) as Hl3.
  destruct (blind_reload DBHandle w1 Hloaded1) as [_ [[c2 Hc2] _]].
  unfold mbind at 1, M_bind at 1.
  destruct (reload env w1) as [[[]|e] w2]; simpl in Hl3, Hc2; [|by destruct Hl3].
  unfold try_except_KeyError, attr_collections, getattr, mbind, M_bind.
  rewrite Hc2. unfold lift, dict_subscript.
  destruct (c2 !! collectionName); simpl; by destruct Hl3.
Qed.

(** *** dropAllCollections when a delete raises *)

Lemma requests_cons_delete_graph k tr : requests (EvDeleteGraph k :: tr) = requests tr.
Proof. unfold requests. simpl. by rewrite omap_app, app_nil_r. Qed.

Lemma requests_cons_delete_collection k tr :
  requests (EvDeleteCollection k :: tr) = requests tr.
Proof. unfold requests. simpl. by rewrite omap_app, app_nil_r. Qed.

Lemma drop_graphs_loop_frame n conn c g l : ∀ tr,
  (∀ k, k ∈ l → is_Some (g !! k)) →
  let out := for_each l (λ graph_name,
                 g ← attr_graphs env;
                 _ ← lift (dict_subscript g graph_name);
                 call_delete env (EvDeleteGraph graph_name))
               (world (database n conn c g) tr) in
  self out.2 = database n conn c g ∧ requests (trace out.2) = requests tr.
Proof.
  induction l as [|k l IH]; intros tr Hl; [done|].
  destruct (Hl k) as [h Hh]; [set_solver|].
  cbn zeta. cbn [for_each]. unfold dict_subscript, call_delete. run. rewrite Hh. run.
  destruct (delete_raises env _); simpl.
  - by rewrite requests_cons_delete_graph.
  - destruct (IH (EvDeleteGraph k :: tr)) as [H1 H2]; [set_solver|].
    split; [exact H1|]. rewrite <- (requests_cons_delete_graph k tr). exact H2.
Qed.

Lemma drop_collections_loop_frame n conn c g l : ∀ tr,
  (∀ k, k ∈ l → is_Some (c !! k)) →
  ∀ out,
    out = for_each l (λ collection_name,
              if negb (String.prefix "_" collection_name) then
                _ ← __getitem__ env collection_name;
                call_delete env (EvDeleteCollection collection_name)
              else mret tt)
            (world (database n conn c g) tr) →
    self out.2 = database n conn c g ∧ requests (trace out.2) = requests tr.
Proof.
  induction l as [|k l IH]; intros tr Hl out Hout; [by subst out|].
  destruct (Hl k) as [h Hh]; [set_solver|].
  cbn [for_each] in Hout.
  destruct (negb (String.prefix "_" k)).
  - assert ((__getitem__ env k ≫= λ _, call_delete env (EvDeleteCollection k))
              (world (database n conn c g) tr)
            = call_delete env (EvDeleteCollection k) (world (database n conn c g) tr))
      as Hbody by (by erewrite bind_ok by (by apply getitem_hit)).
    unfold mbind at 1, M_bind at 1 in Hout. rewrite Hbody in Hout.
    unfold call_delete at 1 in Hout. cbn [self trace] in Hout.
    destruct (delete_raises env (EvDeleteCollection k :: tr)).
    + subst out. split; [reflexivity|]. apply requests_cons_delete_collection.
    + destruct (IH (EvDeleteCollection k :: tr) ltac:(set_solver) out Hout) as [H1 H2].
      split; [exact H1|]. rewrite <- (requests_cons_delete_collection k tr). exact H2.
  - erewrite bind_ok in Hout by reflexivity. eapply IH; [|exact Hout]. set_solver.
Qed.

Lemma dropAllCollections_frame n conn c g tr out :
  out = dropAllCollections env (world (database n conn c g) tr) →
  self out.2 = database n conn c g ∧ requests (trace out.2) = requests tr.
Proof.
  intros Hout. unfold dropAllCollections in Hout.
  erewrite bind_ok in Hout by reflexivity.
  pose proof (drop_graphs_loop_frame n conn c g (keys g) tr
                (λ k, proj1 (elem_of_keys g k))) as [Hs Hr].
  unfold mbind at 1, M_bind at 1 in Hout.
  destruct (for_each (keys g) _ _) as [[[]|e] [s1 tr1]]; simpl in Hs, Hr;
    [|by subst out].
  subst s1. erewrite bind_ok in Hout by reflexivity.
  unfold mbind at 1, M_bind at 1 in Hout.
  pose proof (drop_collections_loop_frame n conn c g (keys c) tr1
                (λ k, proj1 (elem_of_keys c k)) _ eq_refl) as [Hs' Hr'].
  destruct (for_each (keys c) _ _) as [[[]|e] [s2 tr2]]; simpl in Hs', Hr';
    subst out; simpl; by rewrite Hr'.
Qed.

(** X15. Whether the [delete] calls return or raise, [dropAllCollections]
    sends no request of its own and leaves both registries as they were: it
    neither reloads nor removes an entry, so [hasCollection] still answers
    true afterwards for a collection it has just dropped. *)
Theorem dropAllCollections_keeps_the_registries n conn c g tr :
  let s := database n conn c g in
  let out := dropAllCollections env (world s tr) in
  self out.2 = s
  ∧ requests (trace out.2) = requests tr
  ∧ ∀ k, hasCollection env k out.2 = (Ok (bool_decide (is_Some (c !! k))), out.2).
Proof.
  cbn zeta.
  destruct (dropAllCollections_frame n conn c g tr _ eq_refl) as [H1 H2].
  split; [done|]. split; [done|]. intros k.
  destruct (dropAllCollections env _) as [r [s1 tr1]]. simpl in *. by subst s1.
Qed.

(** X16. When every [delete] raises the same exception and the graphs
    mapping is not empty, [dropAllCollections] raises it after a single
    call of [delete], on a graph: the remaining graphs and all the
    collections are left undeleted. *)
Theorem dropAllCollections_stops_at_the_first_failure n conn c g tr e k h :
  (∀ tr', delete_raises env tr' = Some e) →
  g !! k = Some h →
  ∃ k0, is_Some (g !! k0)
    ∧ dropAllCollections env (world (database n conn c g) tr)
      = (Raise e, world (database n conn c g) (EvDeleteGraph k0 :: tr)).
Proof.
  intros Hdel Hk. unfold dropAllCollections.
  erewrite bind_ok by reflexivity.
  assert (k ∈ keys g) as Hin by (apply elem_of_keys; eauto).
  destruct (keys g) as [|k0 rest] eqn:Hkeys; [by apply elem_of_nil in Hin|].
  assert (is_Some (g !! k0)) as [h0 Hh0]
    by (apply elem_of_keys; rewrite Hkeys; set_solver).
  exists k0. split; [eauto|].
  cbn [for_each]. unfold dict_subscript, call_delete. run.
  rewrite Hh0. run. by rewrite Hdel.
Qed.

(** *** explainAQLQuery *)

(** X17. [explainAQLQuery] performs no error translation: whatever status
    and body the server answers, it returns the decoded body, having sent
    one POST to the explain URL with the query, the bind variables and
    [allPlans] as given, and leaves [self] untouched (a DBHandle that has
    not been initialised stays so). *)
Theorem explainAQLQuery_returns_the_answer_untranslated s tr query bindVars allPlans :
  let explain := post (api_url s +:+ "/explain")
                   (<["allPlans" := allPlans]>
                      (<["bindVars" := bindVars]> {[ "query" := query ]})) in
  explainAQLQuery env query bindVars allPlans (world s tr)
  = (Ok (body (server env tr explain)), world s (EvRequest explain :: tr)).
Proof. reflexivity. Qed.

(** *** The constructor *)

Lemma reload_requests_when_ok w w' :
  reload env w = (Ok tt, w') →
  requests (trace w')
  = (requests (trace w) ++ [get (api_url (self w) +:+ "/collection");
                             get (api_url (self w) +:+ "/gharial")])%list.
Proof.
  unfold reload, mbind, M_bind.
  destruct (reloadCollections_requests w) as (H1 & _ & _ & H3 & H4).
  destruct (reloadCollections env w) as [[[]|e] w1]; [|done]. simpl in *.
  intros Hrg. destruct (reloadGraphs_requests w1) as (H5 & _).
  rewrite Hrg in H5. simpl in H5.
  assert (api_url (self w1) = api_url (self w)) as Hu
    by (unfold api_url; by rewrite H3, H4).
  by rewrite Hu, H1, <- app_assoc in H5.
Qed.

(** X19. [Database.__init__] forgets whatever the object held: its outcome
    is that of initialising a blank object of the same class.  However it
    ends, the object then carries the given name and connection and both
    registries are assigned; when it returns, it has sent exactly the
    collection listing and then the graph listing. *)
Theorem constructor_resets_and_loads_both_registries s tr n conn :
  let out := Database___init__ env conn n (world s tr) in
  let blank := under_construction (py_class s) n conn in
  out = Database___init__ env conn n (world blank tr)
  ∧ name (self out.2) = n ∧ connection (self out.2) = conn
  ∧ loaded out.2
  ∧ (out.1 = Ok tt →
     requests (trace out.2)
     = (requests tr ++ [get (api_url blank +:+ "/collection");
                        get (api_url blank +:+ "/gharial")])%list).
Proof.
  cbn zeta. split; [reflexivity|].
  unfold Database___init__. repeat (erewrite bind_ok by reflexivity).
  cbn [self trace py_class name connection collections graphs].
  set (w0 := world {| py_class := py_class s; name := n; connection := conn;
                      collections := Some ∅; graphs := Some ∅ |} tr).
  pose proof (reload_settled (py_class s) n conn w0) as (_ & Hn & Hc & Hcs & Hgs).
  { unfold settled. simpl. eauto 10. }
  split; [done|]. split; [done|]. split; [by split|].
  intros Hok. destruct (reload env w0) as [r w'] eqn:Hr. simpl in Hok. subst r.
  exact (reload_requests_when_ok _ _ Hr).
Qed.

End Proofs.

(** ** The statements at concrete inputs *)

Section Concrete.
Import Scenario.

(** C6. With status 200 and the body [{"error": false, "result": 42}] the
    call does not return the payload: the lookup of [geTransactionURL] on the
    receiver raises AttributeError before any request is sent. *)
Theorem transaction_status_200_raises_AttributeError :
  let out := transaction env_transaction_ok (JArr []) (JStr "function () {}")
               (JBool false) JNull JNull (world db0 []) in
  out.1 = Raise (AttributeError "geTransactionURL") ∧ requests (trace out.2) = [].
Proof. intros out. subst out. unfold db0. rewrite transaction_on_Database. done. Qed.

(** C7. With status 201 and the body [{"error": false}] the call does not
    return the payload, and with status 400 it raises no Query error: the
    URL of the POST is asked of [getCursorsURL], whose definition at line 36
    is malformed, so the call ends with SyntaxError before any request is
    sent. *)
Theorem validateAQLQuery_status_201_raises_SyntaxError :
  let valid := validateAQLQuery env_validate_ok (JStr "RETURN 1") JNull JNull
                 (world db0 []) in
  let invalid := validateAQLQuery env_validate_400 (JStr "RETURN") JNull JNull
                   (world db0 []) in
  (valid.1 = Raise (SyntaxError "invalid syntax") ∧ requests (trace valid.2) = [])
  ∧ (invalid.1 = Raise (SyntaxError "invalid syntax") ∧ requests (trace invalid.2) = []).
Proof. cbn zeta. rewrite !validateAQLQuery_outcome. done. Qed.

Lemma createCollection_prevalidation_witness :
  createCollection env_users "Users" ∅
    (world (database "d" conn {[ "Users" := {| h_class := Users; h_data := JNull |} ]} ∅) [])
  = (Raise (CreationError (duplicate_message "d" "Users") None),
     world (database "d" conn {[ "Users" := {| h_class := Users; h_data := JNull |} ]} ∅) [])
  ∧ createCollection env_users "Collection" {[ "waitForSync" := JBool true ]} (world db0 [])
    = (Raise (ValueError missing_name_message), world db0 []).
Proof.
  split.
  - apply (proj1 (createCollection_prevalidation_sends_nothing env_users "d" conn
                    {[ "Users" := {| h_class := Users; h_data := JNull |} ]} ∅ [] "Users" ∅)
             Users {| h_class := Users; h_data := JNull |}).
    + intros [H | H]; discriminate H.
    + reflexivity.
    + reflexivity.
  - apply (proj2 (proj2 (createCollection_prevalidation_sends_nothing env_users "d" conn
                           ∅ ∅ [] "Collection" {[ "waitForSync" := JBool true ]}))).
    + by left.
    + reflexivity.
Defined.

(** C1, as stated, fails: the type [Users] declares the default
    [waitForSync]; created with the single caller property [journalSize],
    the posted body holds the caller's property, the name and the type, and
    no [waitForSync], which the merge of defaults and caller properties
    holds. *)
Lemma createCollection_discards_defaults :
  let caller : gmap string json := {[ "journalSize" := JNum 1 ]} in
  let out := createCollection env_users "Users" caller (world db0 []) in
  ∃ sent defaults,
    req_data <$> requests (trace out.2) = [Some sent]
    ∧ sent = <["type" := JNum (COLLECTION_DOCUMENT_TYPE env_users)]>
               (<["name" := JStr "Users"]> caller)
    ∧ sent !! "waitForSync" = None
    ∧ _properties Users = Some defaults
    ∧ (caller ∪ defaults) !! "waitForSync" = Some (JBool true).
Proof.
  cbn zeta. eexists _, _. split; [reflexivity|].
  split; [reflexivity|]. split; [reflexivity|]. split; reflexivity.
Qed.

Lemma createCollection_posts_witness :
  trace (createCollection env_users "Users" {[ "journalSize" := JNum 1 ]} (world db0 [])).2
  = [EvRequest (collection_post env_users db0 Users
                  (<["name" := JStr "Users"]> {[ "journalSize" := JNum 1 ]}))].
Proof.
  apply (proj1 (createCollection_posts_caller_properties_or_defaults env_users "d" conn
                  ∅ ∅ [] "Users" Users {[ "journalSize" := JNum 1 ]} eq_refl)).
  - intros [H | H]; discriminate H.
  - reflexivity.
  - rewrite map_size_singleton. lia.
Defined.

(** C5, as stated, fails: the graph type [Social] uses the document type
    [Users] as the edge collection of a definition whose endpoint [Ghost] is
    the only referenced collection that is not a known collection type; the
    validation error names [Users], not [Ghost]. *)
Lemma createGraph_names_known_collection :
  createGraph env_graphs "Social" (JBool true) (JBool false) JNull JNull (world db0 [])
  = (Raise (ValueError "'Users' is not a defined Edge Collection"), world db0 [])
  ∧ isCollection env_graphs "Users" = true
  ∧ filter (λ ref, isCollection env_graphs ref.2 = false) (references Social)
    = [(false, "Ghost")].
Proof. split; [reflexivity|]. split; reflexivity. Qed.

Lemma createGraph_names_first_rejected_witness :
  ∃ first, find (rejected env_graphs) (references Friends) = Some first
    ∧ createGraph env_graphs "Friends" (JBool true) (JBool false) JNull JNull (world db0 [])
      = (Raise (rejection first), world db0 []).
Proof.
  apply (createGraph_names_first_rejected env_graphs "d" conn ∅ ∅ [] "Friends" Friends
           (false, "Ghost")).
  - reflexivity.
  - unfold references, Friends. simpl. set_solver.
  - reflexivity.
Defined.

Lemma failed_calls_witness :
  self (reloadCollections env_graphs (world db0 [])).2 = db0
  ∧ self (reloadGraphs env_graphs (world db0 [])).2 = db0
  ∧ self (createCollection env_graphs "Users" ∅ (world db0 [])).2 = db0.
Proof.
  pose proof (failed_calls_leave_registries_unchanged env_graphs "d" conn ∅ ∅ [])
    as (H1 & H2 & H3 & _).
  split; [|split].
  - apply H1. discriminate.
  - apply H2. discriminate.
  - eapply H3; [reflexivity|]. left. discriminate.
Defined.


(** C3, as stated, fails: the listing gives [Users] the edge type code and
    [isSystem] false, yet the entry registered under [Users] is the handle of
    the registered document type [Users], not of the edge class. *)
Lemma reload_classifies_by_registered_name :
  let out := reload env_listing (world db0 []) in
  out.1 = Ok tt
  ∧ subscript users_item "isSystem" = Ok (JBool false)
  ∧ subscript users_item "type" = Ok (JNum (COLLECTION_EDGE_TYPE env_listing))
  ∧ (collections (self out.2) ≫= (.!! "Users"))
    = Some {| h_class := Users; h_data := users_item |}
  ∧ Users ≠ COL_Edges ∧ cc_isEdges Users = false.
Proof.
  cbn zeta. split; [reflexivity|]. split; [reflexivity|]. split; [reflexivity|].
  split; [reflexivity|]. split; [discriminate|reflexivity].
Qed.

Lemma reload_collections_witness :
  ∃ c', collections (self (reload env_listing (world db0 [])).2) = Some c'
    ∧ (∀ k, is_Some (c' !! k)
            ↔ ∃ item, item ∈ [system_item; users_item; odd_item]
                ∧ subscript item "name" = Ok (JStr k))
    ∧ unknown_type_warning "9" ∈ trace (reload env_listing (world db0 [])).2.
Proof.
  destruct (proj1 (reload_collections_classified env_listing "d" conn ∅ ∅ [])
              (reload env_listing (world db0 [])).2 eq_refl)
    as (res & items & c' & Hres & Hit & Hc' & Hdom & _ & Hwarn).
  injection Hres as <-. injection Hit as <-.
  exists c'. split; [done|]. split; [done|].
  eapply (Hwarn odd_item); [set_solver|reflexivity|set_solver].
Defined.

(** C9, as stated, fails twice.  Asking a fresh DBHandle for [getURL], an
    attribute other than connection and name, initialises nothing.  And the
    initialisation is not run at most once: after a first use that loaded
    the registries, [transaction] looks up the unknown [geTransactionURL],
    which runs [Database.__init__] again; with a server that has gone down
    in between, the DBHandle raises an Update error after a second listing
    request and is left with an empty collections mapping, where the
    Database built from the same answers raises AttributeError, sends
    nothing and keeps its registries. *)
Lemma DBHandle_initialises_again_on_unknown_attribute :
  let u := "http://db/_db/d/_api/collection" in
  let fresh := world (fresh_handle "d" conn) [] in
  let first := hasCollection env_flaky "Users" fresh in
  let again := transaction env_flaky (JArr []) (JStr "f") (JBool false) JNull JNull first.2 in
  let built := Database___init__ env_flaky conn "d"
                 (world (under_construction Database "d" conn) []) in
  let db_again :=
    transaction env_flaky (JArr []) (JStr "f") (JBool false) JNull JNull built.2 in
  getURL fresh = (Ok "http://db/_db/d/_api", fresh)
  ∧ first.1 = Ok true ∧ built.1 = Ok tt ∧ first.2 = as_class DBHandle built.2
  ∧ db_again.1 = Raise (AttributeError "geTransactionURL")
  ∧ listings u (trace db_again.2) = 1%nat
  ∧ self db_again.2 = self built.2
  ∧ again.1 = Raise (UpdateError (JStr "service unavailable") server_down)
  ∧ listings u (trace again.2) = 2%nat
  ∧ collections (self again.2) = Some ∅.
Proof. cbn zeta. repeat split; vm_compute; reflexivity. Qed.

Lemma DBHandle_witness :
  let w := (Database___init__ env_listing conn "d"
              (world (under_construction Database "d" conn) [])).2 in
  hasCollection env_listing "Users" (as_class DBHandle w) = (Ok true, as_class DBHandle w).
Proof.
  cbn zeta.
  pose proof (DBHandle_loads_on_first_registry_access env_listing "d" conn [])
    as (_ & _ & _ & _ & _ & _ & _ & _ & _ & _ & _ & _ & _ & Hhas & _).
  destruct (Hhas "Users" DBHandle
              (Database___init__ env_listing conn "d"
                 (world (under_construction Database "d" conn) [])).2) as [-> _].
  - split; eexists; reflexivity.
  - reflexivity.
Defined.

(** *** Beyond the claims *)

Lemma reloadGraphs_registers_witness :
  let out := reloadGraphs env_three_graphs (world db0 []) in
  let tr' := [EvRequest (get (api_url db0 +:+ "/gharial"))] in
  out.1 = Ok tt
  ∧ (∃ g', out.2 = world (database "d" conn ∅ g') tr'
       ∧ (∀ k, is_Some (g' !! k) ↔ ∃ item, item ∈ three_graphs ∧ graph_key item = Ok k)
       ∧ (∀ k h, g' !! k = Some h →
            gh_class h = built_class env_three_graphs tr' k (gh_data h)))
  ∧ match graphs (self out.2) with
    | Some g' =>
        (gh_class <$> g' !! "Team", gh_class <$> g' !! "Social", gh_class <$> g' !! "Club")
        = (Some (Some Team), Some None, Some None)
    | None => False
    end.
Proof.
  cbn zeta. split; [reflexivity|]. split; [|reflexivity].
  destruct (reloadGraphs_registers_listed_graphs env_three_graphs "d" conn ∅ ∅ []
              (reloadGraphs env_three_graphs (world db0 [])).2 eq_refl)
    as (gs & items & g' & _ & Hgs & Hit & Hw & Hdom & Hcl).
  injection Hgs as <-. injection Hit as <-.
  exists g'. split; [exact Hw|]. split; [exact Hdom|].
  intros k h Hk. by destruct (Hcl k h Hk) as (_ & _ & ? & _).
Defined.

Lemma reload_keeps_new_collections_witness :
  ∃ c1, (∀ k, is_Some (c1 !! k)
              ↔ ∃ item, item ∈ [system_item; users_item; odd_item]
                  ∧ subscript item "name" = Ok (JStr k))
    ∧ (reload env_graphs_down (world db0 [])).1
      = Raise (UpdateError (JStr "service unavailable") server_down)
    ∧ self (reload env_graphs_down (world db0 [])).2 = database "d" conn c1 ∅.
Proof.
  destruct (reload_keeps_new_collections_when_graphs_fail env_graphs_down "d" conn ∅ ∅ []
              (reloadCollections env_graphs_down (world db0 [])).2
              (JStr "service unavailable") eq_refl)
    as (res & items & c1 & Hres & Hit & Hdom & Hreload).
  - discriminate.
  - reflexivity.
  - injection Hres as <-. injection Hit as <-.
    exists c1. split; [exact Hdom|]. unfold db0. rewrite Hreload. done.
Defined.

Lemma reloadCollections_without_result_witness :
  (reloadCollections env_no_result
     (world (database "d" conn {[ "Users" := {| h_class := Users; h_data := JNull |} ]} ∅)
            [])).1
  = Raise (KeyError "result").
Proof.
  destruct (reloadCollections_without_result_empties_the_mapping env_no_result "d" conn
              {[ "Users" := {| h_class := Users; h_data := JNull |} ]} ∅ []
              [("error", JBool false)] "Users") as [H _];
    [reflexivity|reflexivity|reflexivity|].
  by rewrite H.
Defined.

Lemma hasCollection_after_reload_witness :
  ∃ b, hasCollection env_listing "odd" (reload env_listing (world db0 [])).2
       = (Ok b, (reload env_listing (world db0 [])).2)
    ∧ b = true.
Proof.
  destruct (hasCollection_after_reload_follows_the_listing env_listing "d" conn ∅ ∅ []
              (reload env_listing (world db0 [])).2 eq_refl)
    as (res & items & Hres & Hit & Hhas).
  injection Hres as <-. injection Hit as <-.
  destruct (Hhas "odd") as (b & Hb & Hiff).
  exists b. split; [exact Hb|]. apply Hiff. exists odd_item. split; [set_solver|reflexivity].
Defined.

Lemma createCollection_forces_witness :
  ∃ sent,
    trace (createCollection env_users "Users"
             {[ "name" := JStr "other"; "type" := JNum 9 ]} (world db0 [])).2
    = [EvRequest (post (api_url db0 +:+ "/collection") sent)]
    ∧ sent !! "name" = Some (JStr "Users")
    ∧ sent !! "type" = Some (JNum (wire_type env_users Users)).
Proof.
  apply (createCollection_forces_name_and_type env_users "d" conn ∅ ∅ [] "Users" Users
           {[ "name" := JStr "other"; "type" := JNum 9 ]}).
  - reflexivity.
  - intros [H | H]; discriminate H.
  - reflexivity.
Defined.

Lemma createCollection_success_witness :
  let h := {| h_class := Users; h_data := created "Users" |} in
  let out := createCollection env_users "Users" ∅ (world db0 []) in
  out.1 = Ok h
  ∧ hasCollection env_users "Users" out.2 = (Ok true, out.2)
  ∧ createCollection env_users "Users" ∅ out.2
    = (Raise (CreationError (duplicate_message "d" "Users") None), out.2).
Proof.
  cbn zeta.
  destruct (createCollection_success_registers_the_handle env_users "d" conn ∅ ∅ []
              "Users" Users ∅
              (collection_post env_users db0 Users
                 (<["name" := JStr "Users"]> {[ "waitForSync" := JBool true ]}))
              (JBool false))
    as (H1 & H2 & _ & H4); try reflexivity.
  unfold db0. split; [by rewrite H1|]. split; [exact H2|].
  apply H4; [intros [H | H]; discriminate H|reflexivity].
Defined.

Lemma createGraph_posts_witness :
  ∃ sent,
    trace (createGraph env_team "Team" (JBool true) (JBool false) (JNum 0) (JStr "region")
             (world db0 [])).2
    = [EvRequest (post (api_url db0 +:+ "/gharial") sent)]
    ∧ sent !! "isSmart" = None
    ∧ sent !! "options" = Some (JObj [("smartGraphAttribute", JStr "region")]).
Proof.
  destruct (createGraph_posts_optional_keys_when_true env_team "d" conn ∅ ∅ [] "Team" Team
              (JBool true) (JBool false) (JNum 0) (JStr "region") eq_refl eq_refl)
    as (sent & Htr & _ & _ & _ & Hsmart & Hopt & _).
  exists sent. split; [exact Htr|]. split; [exact Hsmart|exact Hopt].
Defined.

Lemma createGraph_success_witness :
  let out := createGraph env_team "Team" (JBool true) (JBool false) JNull JNull
               (world db0 []) in
  let refused := createGraph env_team_without_rev "Team" (JBool true) (JBool false)
                   JNull JNull (world db0 []) in
  (out.1 = Ok {| gh_class := Some Team; gh_data := team_description |}
   ∧ hasGraph env_team "Team" out.2 = (Ok true, out.2))
  ∧ refused = (Raise (KeyError "_rev"),
               world db0 [EvRequest (graph_post env_team_without_rev db0 Team "Team"
                                       (JBool false) JNull JNull)]).
Proof.
  cbn zeta. split.
  - destruct (proj1 (createGraph_success_registers_the_graph env_team "d" conn ∅ ∅ []
                       "Team" Team (JBool true) (JBool false) JNull JNull team_description
                       eq_refl eq_refl (or_introl eq_refl) eq_refl) eq_refl)
      as (H1 & H2 & _).
    unfold db0. split; [by rewrite H1|exact H2].
  - exact (proj2 (createGraph_success_registers_the_graph env_team_without_rev "d" conn
                    ∅ ∅ [] "Team" Team (JBool true) (JBool false) JNull JNull
                    (JObj [("_key", JStr "Team"); ("name", JStr "Team")])
                    eq_refl eq_refl (or_introl eq_refl) eq_refl)
                 (KeyError "_rev") eq_refl).
Defined.

Lemma failed_first_use_witness :
  (hasCollection env_graphs "Users" (world (fresh_handle "d" conn) [])).1
  = Raise (UpdateError (JStr "service unavailable") server_down)
  ∧ hasCollection env_graphs "Users"
      (hasCollection env_graphs "Users" (world (fresh_handle "d" conn) [])).2
    = (Ok false, (hasCollection env_graphs "Users" (world (fresh_handle "d" conn) [])).2).
Proof.
  destruct (failed_first_use_leaves_an_empty_handle env_graphs "d" conn []
              (JStr "service unavailable") "Users") as [H1 H2];
    [discriminate|reflexivity|].
  split; [by rewrite H1|]. apply H2.
Defined.

Lemma getitem_on_fresh_handle_witness :
  listings "http://db/_db/d/_api/collection"
    (trace (__getitem__ env_listing "nowhere" (world (fresh_handle "d" conn) [])).2)
  = 2%nat.
Proof.
  apply (getitem_on_fresh_handle_lists_twice env_listing "d" conn [] "nowhere"
           (default ∅ (collections (self (Database___init__ env_listing conn "d"
              (world (under_construction Database "d" conn) [])).2)))); reflexivity.
Defined.

Lemma dropAllCollections_stops_witness :
  let g : gmap string GraphHandle := {[ "Team" := {| gh_class := None; gh_data := JNull |} ]} in
  let c : gmap string ColHandle := {[ "Users" := {| h_class := Users; h_data := JNull |} ]} in
  dropAllCollections env_delete_fails (world (database "d" conn c g) [])
  = (Raise deletion_refused, world (database "d" conn c g) [EvDeleteGraph "Team"]).
Proof.
  cbn zeta.
  destruct (dropAllCollections_stops_at_the_first_failure env_delete_fails "d" conn
              {[ "Users" := {| h_class := Users; h_data := JNull |} ]}
              {[ "Team" := {| gh_class := None; gh_data := JNull |} ]} []
              deletion_refused "Team" {| gh_class := None; gh_data := JNull |}
              (λ _, eq_refl) (lookup_singleton_eq _ _)) as (k0 & [h0 Hk0] & Hdrop).
  rewrite Hdrop.
  destruct (decide (k0 = "Team")) as [->|Hne]; [done|].
  by rewrite lookup_singleton_ne in Hk0.
Defined.

End Concrete.
